(* ===================================================================== *)
(* Power Net Analyzer (power_analyzer.py): a shallow embedding of the     *)
(* plugin's event handlers and of run_analysis, with the properties of    *)
(* the mesh generation, the netlist synthesis and the post-processing.    *)
(* ===================================================================== *)

From stdpp Require Import base option list strings pretty gmap.
From Stdlib Require Import ZArith QArith Lia Ascii.

#[local] Open Scope string_scope.
#[local] Open Scope list_scope.
#[local] Open Scope Z_scope.

(* --------------------------------------------------------------------- *)
(* Host objects (pcbnew). Only what the plugin reads from them is kept:   *)
(* a hit test is a host-provided predicate on a point in nanometers.      *)
(* --------------------------------------------------------------------- *)

(* pcbnew NETINFO_ITEM: GetNet() is the net code. *)
Record Net := { GetNet : Z }.

(* pcbnew D_PAD: GetPadName(), GetParent().GetReference(),
   GetNet().GetNetname() and HitTest(wxPoint(x, y)). *)
Record Pad := {
  GetPadName : string;
  GetReference : string;
  GetNetname : string;
  PadHitTest : Z → Z → bool;
}.

(* pcbnew TRACK: its net code and HitTest(wxPoint(x, y)). *)
Record Track := {
  GetNetCode : Z;
  TrackHitTest : Z → Z → bool;
}.

(* board.GetBoardEdgesBoundingBox(): GetX, GetY, GetWidth, GetHeight. *)
Record BoundingBox := {
  GetX : Z;
  GetY : Z;
  GetWidth : Z;
  GetHeight : Z;
}.

(* The board: GetNetsByName().items() in iteration order, GetPads() in
   iteration order, the tracks and the bounding box of the board edges. *)
Record Board := {
  GetNetsByName : list (string * Net);
  GetPads : list Pad;
  GetTracks : list Track;
  GetBoardEdgesBoundingBox : BoundingBox;
}.

(* board.TracksInNet(code): the tracks whose net code is [code]. *)
Definition TracksInNet (b : Board) (code : Z) : list Track :=
  filter (λ t, GetNetCode t = code) (GetTracks b).

(* --------------------------------------------------------------------- *)
(* The DataViewListCtrl self.pad_config: one row per pad, with the three  *)
(* columns "Pad Name" (0), "Current Draw" (1) and "Source" (2).           *)
(* --------------------------------------------------------------------- *)

Record Row := {
  row_name : string;
  row_current : string;
  row_source : bool;
}.

(* GetTextValue(row, 0), GetTextValue(row, 1), GetToggleValue(row, 2);
   None stands for the toolkit's failure on a row that does not exist. *)
Definition GetTextValue0 (cfg : list Row) (row : nat) : option string :=
  row_name <$> cfg !! row.

Definition GetTextValue1 (cfg : list Row) (row : nat) : option string :=
  row_current <$> cfg !! row.

Definition GetToggleValue (cfg : list Row) (row : nat) : option bool :=
  row_source <$> cfg !! row.

(* SetToggleValue(value, row, 2) *)
Definition SetToggleValue (value : bool) (row : nat) (cfg : list Row) : list Row :=
  alter (λ r, {| row_name := row_name r; row_current := row_current r;
                 row_source := value |}) row cfg.

(* The toolkit stores an edited "Current Draw" text before it raises
   EVT_DATAVIEW_ITEM_VALUE_CHANGED for column 1. *)
Definition SetTextValue1 (text : string) (row : nat) (cfg : list Row) : list Row :=
  alter (λ r, {| row_name := row_name r; row_current := text;
                 row_source := row_source r |}) row cfg.

(* --------------------------------------------------------------------- *)
(* PowerNetAnalyzerGui: the attributes the handlers read and write.       *)
(* An attribute that is not assigned by __init__ is None until a handler  *)
(* assigns it.                                                            *)
(* --------------------------------------------------------------------- *)

Record Gui := {
  board : Board;
  netnames : list string;
  nets : list Net;
  pad_config : list Row;
  source_row : Z;
  start_button : bool;               (* Enable() / Disable() *)
  analysis_netname : option string;
  analysis_net : option Net;
  analysis_padnames : option (list string);
  analysis_pads : option (list Pad);
}.

(* __init__, lines 49-57: the loop over board_nets.items(). *)
Fixpoint collect_nets (items : list (string * Net))
    (names : list string) (ns : list Net) : list string * list Net :=
  match items with
  | [] => (names, ns)
  | (netname, net) :: rest =>
      if decide (netname = "") then collect_nets rest names ns
      else collect_nets rest (names ++ [netname]) (ns ++ [net])
  end.

(* __init__ *)
Definition init (b : Board) : Gui :=
  let '(names, ns) := collect_nets (GetNetsByName b) [] [] in
  {| board := b;
     netnames := names;
     nets := ns;
     pad_config := [];
     source_row := -1;
     start_button := false;
     analysis_netname := None;
     analysis_net := None;
     analysis_padnames := None;
     analysis_pads := None |}.

(* "{}-Pad{}".format(parent_ref, pad_num) *)
Definition format_padname (parent_ref pad_num : string) : string :=
  parent_ref +:+ "-Pad" +:+ pad_num.

(* OnSelectNet, lines 110-123: the loop over the pads of the board,
   threading analysis_padnames, analysis_pads and the rows of pad_config. *)
Fixpoint select_pads (pads : list Pad) (netname : string)
    (acc : list string * list Pad * list Row) : list string * list Pad * list Row :=
  match pads with
  | [] => acc
  | pad :: rest =>
      let '(padnames, apads, cfg) := acc in
      if decide (GetNetname pad = netname) then
        let name := format_padname (GetReference pad) (GetPadName pad) in
        select_pads rest netname
          (padnames ++ [name], apads ++ [pad],
           cfg ++ [{| row_name := name; row_current := "0"; row_source := false |}])
      else select_pads rest netname acc
  end.

(* OnSelectNet; [selection] is event.GetSelection(). None is the
   IndexError of self.netnames[...] on a selection out of range. *)
Definition OnSelectNet (st : Gui) (selection : nat) : option Gui :=
  netname ← netnames st !! selection;
  net ← nets st !! selection;
  (* DeleteAllItems(); source_row = -1; start_button.Disable() *)
  let pads := GetPads (board st) in
  if decide (0 < length pads)%nat then
    let '(padnames, apads, cfg) := select_pads pads netname ([], [], []) in
    Some {| board := board st; netnames := netnames st; nets := nets st;
            pad_config := cfg; source_row := -1; start_button := false;
            analysis_netname := Some netname; analysis_net := Some net;
            analysis_padnames := Some padnames; analysis_pads := Some apads |}
  else
    Some {| board := board st; netnames := netnames st; nets := nets st;
            pad_config := []; source_row := -1; start_button := false;
            analysis_netname := Some netname; analysis_net := Some net;
            analysis_padnames := analysis_padnames st;
            analysis_pads := analysis_pads st |}.

Definition set_source (st : Gui) (cfg : list Row) (row : Z) (enabled : bool) : Gui :=
  {| board := board st; netnames := netnames st; nets := nets st;
     pad_config := cfg; source_row := row; start_button := enabled;
     analysis_netname := analysis_netname st; analysis_net := analysis_net st;
     analysis_padnames := analysis_padnames st; analysis_pads := analysis_pads st |}.

(* OnSelectSource; [column] is event.GetColumn() and [row] is
   self.pad_config.ItemToRow(event.GetItem()). *)
Definition OnSelectSource (st : Gui) (column : nat) (row : Z) : Gui :=
  if decide (column = 2%nat) then
    if decide (source_row st = row) then
      set_source st (pad_config st) (-1) false
    else if decide (source_row st ≠ -1) then
      set_source st (SetToggleValue false (Z.to_nat (source_row st)) (pad_config st)) row true
    else
      set_source st (pad_config st) row true
  else st.

(* --------------------------------------------------------------------- *)
(* run_analysis, lines 149-209: discretization and classification.        *)
(* --------------------------------------------------------------------- *)

Definition analysis_grid_spacing : Z := 100000.

(* The texts that "{}".format gives for the float constants
   analysis_sheet_resistance = 0.0005 and analysis_source_voltage = 3.3. *)
Definition analysis_sheet_resistance : string := "0.0005".
Definition analysis_source_voltage_text : string := "3.3".

(* analysis_source_voltage as a number; a voltage is only stored and
   displayed, never computed with, so an exact rational stands for it. *)
Definition analysis_source_voltage : Q := (33 # 10)%Q.

(* Python's range(start, stop, step) for a positive step. *)
Definition py_range (start stop step : Z) : list Z :=
  (λ k : nat, start + Z.of_nat k * step)
    <$> seq 0 (Z.to_nat ((stop - start + step - 1) `div` step)).

(* A call of HitTest, on the pad or on the track at [index] of the list
   that is scanned. *)
Inductive probe :=
  | ProbePad (index : nat)
  | ProbeTrack (index : nat).

(* The locals of one iteration of the inner loop when it reaches line 200,
   with the hit tests it has made, in order. *)
Record node := {
  test_point : Z * Z;
  node_name : string;
  node_on_net : bool;
  hit_tests : list probe;
}.

Definition probed (p : probe) (nd : node) : node :=
  {| test_point := test_point nd; node_name := node_name nd;
     node_on_net := node_on_net nd; hit_tests := hit_tests nd ++ [p] |}.

Definition on_net (name : string) (nd : node) : node :=
  {| test_point := test_point nd; node_name := name;
     node_on_net := true; hit_tests := hit_tests nd |}.

(* lines 180-188: the loop over enumerate(self.analysis_pads) *)
Fixpoint scan_pads (cfg : list Row) (pads : list Pad) (index : nat)
    (nd : node) : option node :=
  match pads with
  | [] => Some nd
  | pad :: rest =>
      let nd := probed (ProbePad index) nd in
      if PadHitTest pad (test_point nd).1 (test_point nd).2 then
        current ← GetTextValue1 cfg index;
        named ← (if decide (current ≠ "0") then Some true
                 else GetToggleValue cfg index);
        if named : bool then
          name ← GetTextValue0 cfg index;
          Some (on_net name nd)
        else Some (on_net (node_name nd) nd)
      else scan_pads cfg rest (S index) nd
  end.

(* lines 192-196: the loop over analysis_tracks *)
Fixpoint scan_tracks (tracks : list Track) (index : nat) (nd : node) : node :=
  match tracks with
  | [] => nd
  | track :: rest =>
      let nd := probed (ProbeTrack index) nd in
      if TrackHitTest track (test_point nd).1 (test_point nd).2 then
        on_net (node_name nd) nd
      else scan_tracks rest (S index) nd
  end.

(* "n{}x{}".format(i, j) *)
Definition format_node_name (i j : nat) : string :=
  "n" +:+ pretty i +:+ "x" +:+ pretty j.

(* lines 175-196: the body of the inner loop up to the classification.
   self.analysis_pads is read when the pad loop starts. The counter
   nodes_to_process, which is only printed, is left out. *)
Definition create_node (cfg : list Row) (opads : option (list Pad))
    (tracks : list Track) (i j : nat) (x y : Z) : option node :=
  let nd := {| test_point := (x, y); node_name := format_node_name i j;
               node_on_net := false; hit_tests := [] |} in
  pads ← opads;
  nd ← scan_pads cfg pads 0 nd;
  if node_on_net nd then Some nd
  else Some (scan_tracks tracks 0 nd).

(* lines 201-204: what is appended to the line *)
Definition node_entry (nd : node) : string :=
  if node_on_net nd then node_name nd else "".

(* lines 174-206: the inner loop, with its counter j *)
Fixpoint create_line (cfg : list Row) (opads : option (list Pad))
    (tracks : list Track) (i : nat) (x : Z) (ys : list Z) (j : nat)
    : option (list node) :=
  match ys with
  | [] => Some []
  | y :: rest =>
      nd ← create_node cfg opads tracks i j x y;
      line ← create_line cfg opads tracks i x rest (S j);
      Some (nd :: line)
  end.

(* lines 171-209: the outer loop, with its counter i *)
Fixpoint create_lines (cfg : list Row) (opads : option (list Pad))
    (tracks : list Track) (xs ys : list Z) (i : nat)
    : option (list (list node)) :=
  match xs with
  | [] => Some []
  | x :: rest =>
      line ← create_line cfg opads tracks i x ys 0;
      lines ← create_lines cfg opads tracks rest ys (S i);
      Some (line :: lines)
  end.

(* lines 149-209 *)
Definition create_nodes (st : Gui) : option (list (list node)) :=
  let bounding_box := GetBoardEdgesBoundingBox (board st) in
  let root_x := GetX bounding_box in
  let root_y := GetY bounding_box in
  let width := GetWidth bounding_box in
  let height := GetHeight bounding_box in
  net ← analysis_net st;
  let analysis_tracks := TracksInNet (board st) (GetNet net) in
  create_lines (pad_config st) (analysis_pads st) analysis_tracks
    (py_range root_x (root_x + width) analysis_grid_spacing)
    (py_range root_y (root_y + height) analysis_grid_spacing) 0.

(* analysis_nodes: the grid of node names, "" off the net *)
Definition node_names (grid : list (list node)) : list (list string) :=
  (λ line : list node, node_entry <$> line) <$> grid.

(* --------------------------------------------------------------------- *)
(* run_analysis, lines 215-246: netlist synthesis.                        *)
(* --------------------------------------------------------------------- *)

(* analysis_nodes[i][j]; None is Python's IndexError. The indices the
   loops compute are never negative. *)
Definition node_at (nodes : list (list string)) (i j : nat) : option string :=
  line ← nodes !! i; line !! j.

(* "R{} {} {} {}".format(n, a, b, self.analysis_sheet_resistance) *)
Definition format_resistor (n : nat) (a b : string) : string :=
  "R" +:+ pretty n +:+ " " +:+ a +:+ " " +:+ b +:+ " " +:+ analysis_sheet_resistance.

(* One of the four tests of lines 221-235 on the neighbour at (i', j'),
   threading analysis_netlist and n. *)
Definition connect (nodes : list (list string)) (i j i' j' : nat)
    (s : list string * nat) : option (list string * nat) :=
  b ← node_at nodes i' j';
  if decide (b ≠ "") then
    a ← node_at nodes i j;
    Some (s.1 ++ [format_resistor s.2 a b], S s.2)
  else Some s.

(* lines 219-235: the body of the inner loop; the loops call it with
   1 <= i and 1 <= j only, so that i - 1 and j - 1 are indices. *)
Definition stencil (nodes : list (list string)) (i j : nat)
    (s : list string * nat) : option (list string * nat) :=
  a ← node_at nodes i j;
  if decide (a ≠ "") then
    s ← connect nodes i j (i + 1) j s;
    s ← connect nodes i j i (j + 1) s;
    s ← connect nodes i j (i - 1) j s;
    connect nodes i j i (j - 1) s
  else Some s.

(* A for loop over a list of indices whose body may fail. *)
Fixpoint for_each {S : Type} (body : nat → S → option S) (indices : list nat)
    (s : S) : option S :=
  match indices with
  | [] => Some s
  | k :: rest => s ← body k s; for_each body rest s
  end.

(* lines 217-235; len(analysis_nodes[0]) is evaluated at each turn of the
   outer loop. *)
Definition resistors (nodes : list (list string))
    (s : list string * nat) : option (list string * nat) :=
  for_each (λ i s,
      line0 ← nodes !! 0%nat;
      for_each (λ j s, stencil nodes i j s)
        (seq 1 (length line0 - 1 - 1)) s)
    (seq 1 (length nodes - 1 - 1)) s.

(* "V1 {} 0 {}".format(name, self.analysis_source_voltage) *)
Definition format_voltage_source (name : string) : string :=
  "V1 " +:+ name +:+ " 0 " +:+ analysis_source_voltage_text.

(* "I{} {} 0 {}".format(i, name, current) *)
Definition format_current_source (i : nat) (name current : string) : string :=
  "I" +:+ pretty i +:+ " " +:+ name +:+ " 0 " +:+ current.

(* lines 241-243: the loop over enumerate(self.analysis_padnames) *)
Fixpoint current_sources (cfg : list Row) (padnames : list string) (i : nat)
    (netlist : list string) : option (list string) :=
  match padnames with
  | [] => Some netlist
  | _ :: rest =>
      current ← GetTextValue1 cfg i;
      if decide (current ≠ "0") then
        name ← GetTextValue0 cfg i;
        current_sources cfg rest (S i)
          (netlist ++ [format_current_source i name current])
      else current_sources cfg rest (S i) netlist
  end.

(* lines 215-246 *)
Definition create_netlist (st : Gui) (nodes : list (list string))
    : option (list string) :=
  s ← resistors nodes (["analysis"], 1%nat);
  source ← (if decide (0 ≤ source_row st)
            then GetTextValue0 (pad_config st) (Z.to_nat (source_row st))
            else None);
  let netlist := s.1 ++ [format_voltage_source source] in
  padnames ← analysis_padnames st;
  netlist ← current_sources (pad_config st) padnames 0 netlist;
  Some (netlist ++ [".op"] ++ [".end"]).

(* --------------------------------------------------------------------- *)
(* run_analysis, lines 248-263: simulation, post-processing and plot.     *)
(* --------------------------------------------------------------------- *)

Definition lower_ascii (c : ascii) : ascii :=
  let n := nat_of_ascii c in
  if decide (65 ≤ n ≤ 90)%nat then ascii_of_nat (n + 32) else c.

(* What str.lower() gives on a text of ASCII characters: the letters A
   to Z become a to z. *)
Fixpoint lower (s : string) : string :=
  match s with
  | EmptyString => EmptyString
  | String c rest => String (lower_ascii c) (lower rest)
  end.

(* lines 252-260; [str_lower] is Python's str.lower(), which lowercases
   every cased letter of Unicode, and [op1] is data["op1"], which gives
   for a node name the vector of its values, of which element 0 is read.
   None is a KeyError or an IndexError. *)
Definition node_voltages (str_lower : string → string)
    (op1 : gmap string (list Q))
    (nodes : list (list string)) : option (list (list Q)) :=
  mapM (λ i : nat,
      line0 ← nodes !! 0%nat;
      mapM (λ j : nat,
          name ← node_at nodes i j;
          if decide (name ≠ "") then
            values ← op1 !! str_lower name;
            values !! 0%nat
          else Some analysis_source_voltage)
        (seq 0 (length line0)))
    (seq 0 (length nodes)).

(* run_analysis. [ngspice] is NgSpice().run, which gives data["op1"] for
   a netlist; [matshow] is plt.matshow(np.transpose(node_voltages))
   followed by plt.show(), lines 262-263, of the plotting library, None
   when it raises. The result is the grid of voltages that was shown. *)
Definition run_analysis (str_lower : string → string)
    (ngspice : list string → gmap string (list Q))
    (matshow : list (list Q) → option ())
    (st : Gui) : option (list (list Q)) :=
  _ ← analysis_netname st;
  grid ← create_nodes st;
  let analysis_nodes := node_names grid in
  analysis_netlist ← create_netlist st analysis_nodes;
  node_voltages ←
    node_voltages str_lower (ngspice analysis_netlist) analysis_nodes;
  _ ← matshow node_voltages;
  Some node_voltages.

(* What a press of the button does. *)
Inductive outcome :=
  | NotRun
  | Ran (result : option (list (list Q))).

(* OnStartAnalysis *)
Definition OnStartAnalysis (str_lower : string → string)
    (ngspice : list string → gmap string (list Q))
    (matshow : list (list Q) → option ())
    (st : Gui) : outcome :=
  if decide (source_row st ≠ -1)
  then Ran (run_analysis str_lower ngspice matshow st)
  else NotRun.

(* --------------------------------------------------------------------- *)
(* The events of the window. The toolkit changes the cell that the user   *)
(* edits, and then raises EVT_DATAVIEW_ITEM_VALUE_CHANGED for it.         *)
(* --------------------------------------------------------------------- *)

Definition with_pad_config (st : Gui) (cfg : list Row) : Gui :=
  set_source st cfg (source_row st) (start_button st).

(* A click on the toggle of the "Source" column. *)
Definition flip_toggle (row : nat) (cfg : list Row) : list Row :=
  alter (λ r, {| row_name := row_name r; row_current := row_current r;
                 row_source := negb (row_source r) |}) row cfg.

(* The click on the toggle of [row], followed by the handler. *)
Definition toggle_source (st : Gui) (row : nat) : Gui :=
  OnSelectSource (with_pad_config st (flip_toggle row (pad_config st)))
    2 (Z.of_nat row).

(* The edit of the "Current Draw" cell of [row], followed by the handler. *)
Definition edit_current (st : Gui) (row : nat) (text : string) : Gui :=
  OnSelectSource (with_pad_config st (SetTextValue1 text row (pad_config st)))
    1 (Z.of_nat row).

Inductive event :=
  | SelectNet (selection : nat)
  | ToggleSource (row : nat)
  | EditCurrent (row : nat) (text : string)
  | PressStart.

(* An event on a row needs the row to exist; a selection out of the
   choices of the combo box is not an event either. The analysis that a
   press of the button may start changes no attribute that the handlers
   read. *)
Definition handle (st : Gui) (e : event) : option Gui :=
  match e with
  | SelectNet selection => OnSelectNet st selection
  | ToggleSource row =>
      if decide (row < length (pad_config st))%nat
      then Some (toggle_source st row) else None
  | EditCurrent row text =>
      if decide (row < length (pad_config st))%nat
      then Some (edit_current st row text) else None
  | PressStart => Some st
  end.

Inductive reachable (b : Board) : Gui → Prop :=
  | reachable_init : reachable b (init b)
  | reachable_step st e st' :
      reachable b st → handle st e = Some st' → reachable b st'.

(* The row that OnSelectNet appends for a pad. *)
Definition pad_label (pad : Pad) : string :=
  format_padname (GetReference pad) (GetPadName pad).

Definition fresh_row (pad : Pad) : Row :=
  {| row_name := pad_label pad; row_current := "0"; row_source := false |}.

Definition pads_of_net (b : Board) (netname : string) : list Pad :=
  filter (λ pad, GetNetname pad = netname) (GetPads b).

Definition at_most_one_source (cfg : list Row) : Prop :=
  ∀ i j ri rj, cfg !! i = Some ri → cfg !! j = Some rj →
    row_source ri = true → row_source rj = true → i = j.

(* The toggles, source_row and the button agree. *)
Definition source_inv (st : Gui) : Prop :=
  (∀ i r, pad_config st !! i = Some r →
     (row_source r = true ↔ source_row st = Z.of_nat i)) ∧
  (source_row st = -1 ∨
   0 ≤ source_row st < Z.of_nat (length (pad_config st))) ∧
  (start_button st = true ↔ source_row st ≠ -1).

(* The pad configuration has the pads of the analysis net, row by row. *)
Definition configured (st : Gui) : Prop :=
  ∃ name net,
    analysis_netname st = Some name ∧ analysis_net st = Some net ∧
    analysis_pads st = Some (pads_of_net (board st) name) ∧
    analysis_padnames st = Some (pad_label <$> pads_of_net (board st) name) ∧
    row_name <$> pad_config st = pad_label <$> pads_of_net (board st) name.

(* What run_analysis needs of the state it is called in. *)
Definition ready (st : Gui) : Prop :=
  configured st ∧ 0 ≤ source_row st < Z.of_nat (length (pad_config st)).

(* --------------------------------------------------------------------- *)
(* What the loops of run_analysis compute, as lists                       *)
(* --------------------------------------------------------------------- *)

(* Every line of the grid has [w] entries. *)
Definition rectangular {A : Type} (grid : list (list A)) (w : nat) : Prop :=
  ∀ line, line ∈ grid → length line = w.

(* The neighbours of (i, j) in the order of lines 221-235: right, bottom,
   left, top. *)
Definition neighbours (i j : nat) : list (nat * nat) :=
  [(i + 1, j); (i, j + 1); (i - 1, j); (i, j - 1)]%nat.

(* The nodes that the loops of lines 217-218 visit. *)
Definition interior (nodes : list (list string)) (w i j : nat) : Prop :=
  (1 ≤ i ∧ i + 1 < length nodes ∧ 1 ≤ j ∧ j + 1 < w)%nat.

(* The names on the net among the neighbours of (i, j), each with the
   name at (i, j), when (i, j) is on the net. *)
Definition stencil_pairs (nodes : list (list string)) (i j : nat)
    : list (string * string) :=
  match node_at nodes i j with
  | Some a =>
      if decide (a ≠ "") then
        omap (λ p, match node_at nodes p.1 p.2 with
                   | Some b => if decide (b ≠ "") then Some (a, b) else None
                   | None => None
                   end) (neighbours i j)
      else []
  | None => []
  end.

Definition resistor_pairs (nodes : list (list string)) (w : nat)
    : list (string * string) :=
  i ← seq 1 (length nodes - 1 - 1);
  j ← seq 1 (w - 1 - 1);
  stencil_pairs nodes i j.

(* The resistor lines of the pairs, numbered from [n]. *)
Definition resistor_lines (n : nat) (pairs : list (string * string))
    : list string :=
  imap (λ k p, format_resistor (n + k) p.1 p.2) pairs.

(* The current source lines of the rows, numbered from [i]. *)
Fixpoint current_lines (cfg : list Row) (i : nat) : list string :=
  match cfg with
  | [] => []
  | r :: rest =>
      (if decide (row_current r ≠ "0")
       then [format_current_source i (row_name r) (row_current r)] else [])
      ++ current_lines rest (S i)
  end.

Definition pad_hit (x y : Z) (pad : Pad) : Prop := PadHitTest pad x y = true.

Definition track_hit (x y : Z) (track : Track) : Prop :=
  TrackHitTest track x y = true.

#[global] Instance pad_hit_dec x y pad : Decision (pad_hit x y pad) :=
  bool_eq_dec (PadHitTest pad x y) true.

#[global] Instance track_hit_dec x y track : Decision (track_hit x y track) :=
  bool_eq_dec (TrackHitTest track x y) true.

(* The name that lines 183-184 give to a point whose pad has the row at
   index [k]: the name of the row when its current draw is not "0" or it
   is the source, and the name that the point has otherwise. *)
Definition pad_node_name (cfg : list Row) (k : nat) (name : string) : string :=
  match cfg !! k with
  | Some r =>
      if decide (row_current r ≠ "0") then row_name r
      else if row_source r then row_name r else name
  | None => name
  end.

(* The hit tests of a point whose first pad, or first track when it is on
   no pad, is the one that list_find gives. *)
Definition expected_hit_tests (pads : list Pad) (tracks : list Track)
    (x y : Z) : list probe :=
  match list_find (pad_hit x y) pads with
  | Some (k, _) => ProbePad <$> seq 0 (S k)
  | None =>
      (ProbePad <$> seq 0 (length pads)) ++
      match list_find (track_hit x y) tracks with
      | Some (k, _) => ProbeTrack <$> seq 0 (S k)
      | None => ProbeTrack <$> seq 0 (length tracks)
      end
  end.

(* The x and the y of the test points, as the two ranges of lines 171
   and 174 give them. *)
Definition grid_xs (b : Board) : list Z :=
  py_range (GetX (GetBoardEdgesBoundingBox b))
    (GetX (GetBoardEdgesBoundingBox b) + GetWidth (GetBoardEdgesBoundingBox b))
    analysis_grid_spacing.

Definition grid_ys (b : Board) : list Z :=
  py_range (GetY (GetBoardEdgesBoundingBox b))
    (GetY (GetBoardEdgesBoundingBox b) + GetHeight (GetBoardEdgesBoundingBox b))
    analysis_grid_spacing.

(* The node at index (i, j) of the grid. *)
Definition grid_node (grid : list (list node)) (i j : nat) : option node :=
  line ← grid !! i; line !! j.

(* The voltage at index (i, j) of node_voltages. *)
Definition voltage_at (volts : list (list Q)) (i j : nat) : option Q :=
  line ← volts !! i; line !! j.

(* The characters 0 to 9, of which the decimal text of a number is made. *)
Definition is_digit (c : ascii) : Prop :=
  (48 ≤ nat_of_ascii c ≤ 57)%nat.

Fixpoint all_digits (s : string) : Prop :=
  match s with
  | EmptyString => True
  | String c rest => is_digit c ∧ all_digits rest
  end.

(* --------------------------------------------------------------------- *)
(* Two small boards                                                       *)
(* --------------------------------------------------------------------- *)

Module Demo.

(* A hit test of a rectangle with its border. *)
Definition within (x0 y0 x1 y1 : Z) (x y : Z) : bool :=
  bool_decide (x0 ≤ x ≤ x1 ∧ y0 ≤ y ≤ y1).

Definition vcc : Net := {| GetNet := 1 |}.
Definition gnd : Net := {| GetNet := 2 |}.

(* Two pads of VCC that overlap at (100000, 100000), a pad of GND, a
   third pad of VCC and a track of VCC, on a board of 3 by 3 test
   points. *)
Definition pad1 : Pad :=
  {| GetPadName := "1"; GetReference := "U1"; GetNetname := "VCC";
     PadHitTest := within 0 0 100000 100000 |}.

Definition pad2 : Pad :=
  {| GetPadName := "2"; GetReference := "U1"; GetNetname := "VCC";
     PadHitTest := within 100000 100000 200000 200000 |}.

Definition pad3 : Pad :=
  {| GetPadName := "3"; GetReference := "U1"; GetNetname := "GND";
     PadHitTest := within 0 0 0 0 |}.

Definition pad4 : Pad :=
  {| GetPadName := "4"; GetReference := "U1"; GetNetname := "VCC";
     PadHitTest := within 200000 0 200000 0 |}.

Definition track1 : Track :=
  {| GetNetCode := 1; TrackHitTest := within 0 0 250000 150000 |}.

Definition demo_board : Board :=
  {| GetNetsByName :=
       [("", {| GetNet := 0 |}); ("GND", gnd); ("VCC", vcc)];
     GetPads := [pad1; pad3; pad2; pad4];
     GetTracks := [track1];
     GetBoardEdgesBoundingBox :=
       {| GetX := 0; GetY := 0; GetWidth := 300000; GetHeight := 250000 |} |}.

(* VCC is selected, then the second of its pads as the source, and the
   third is given a current draw. *)
Definition demo_state : Gui :=
  default (init demo_board)
    (st ← handle (init demo_board) (SelectNet 1);
     st ← handle st (ToggleSource 1);
     handle st (EditCurrent 2 "0.5")).

(* A board of 2 by 1 test points, all on a track of VCC, with the source
   pad at the first of them. *)
Definition edge_board : Board :=
  {| GetNetsByName := [("VCC", vcc)];
     GetPads := [{| GetPadName := "1"; GetReference := "J1";
                    GetNetname := "VCC"; PadHitTest := within 0 0 0 0 |}];
     GetTracks := [{| GetNetCode := 1;
                      TrackHitTest := within 0 0 200000 100000 |}];
     GetBoardEdgesBoundingBox :=
       {| GetX := 0; GetY := 0; GetWidth := 200000; GetHeight := 100000 |} |}.

Definition edge_state : Gui :=
  default (init edge_board)
    (st ← handle (init edge_board) (SelectNet 0);
     handle st (ToggleSource 0)).

(* A board of 4 by 3 test points, all on a track of VCC, with the source
   pad at the first of them. *)
Definition wide_board : Board :=
  {| GetNetsByName := [("VCC", vcc)];
     GetPads := [{| GetPadName := "1"; GetReference := "J1";
                    GetNetname := "VCC"; PadHitTest := within 0 0 0 0 |}];
     GetTracks := [{| GetNetCode := 1;
                      TrackHitTest := within 0 0 400000 300000 |}];
     GetBoardEdgesBoundingBox :=
       {| GetX := 0; GetY := 0; GetWidth := 400000; GetHeight := 300000 |} |}.

Definition wide_state : Gui :=
  default (init wide_board)
    (st ← handle (init wide_board) (SelectNet 0);
     handle st (ToggleSource 0)).

(* The same board with a second net, AUX, that has a track and no pad;
   AUX is selected. *)
Definition aux_board : Board :=
  {| GetNetsByName := [("AUX", gnd); ("VCC", vcc)];
     GetPads := GetPads wide_board;
     GetTracks := {| GetNetCode := 2;
                     TrackHitTest := within 0 0 100000 0 |}
                  :: GetTracks wide_board;
     GetBoardEdgesBoundingBox := GetBoardEdgesBoundingBox wide_board |}.

Definition aux_state : Gui :=
  default (init aux_board) (handle (init aux_board) (SelectNet 0)).

(* A board with no width. *)
Definition flat_board : Board :=
  {| GetNetsByName := [("VCC", vcc)];
     GetPads := [{| GetPadName := "1"; GetReference := "J1";
                    GetNetname := "VCC"; PadHitTest := within 0 0 0 0 |}];
     GetTracks := [];
     GetBoardEdgesBoundingBox :=
       {| GetX := 0; GetY := 0; GetWidth := 0; GetHeight := 300000 |} |}.

Definition flat_state : Gui :=
  default (init flat_board)
    (st ← handle (init flat_board) (SelectNet 0);
     handle st (ToggleSource 0)).




(* What a solver gives for the nodes of demo_state. *)
Definition demo_op1 : gmap string (list Q) :=
  list_to_map
    [("n0x0", [(32 # 10)%Q]); ("n0x1", [(32 # 10)%Q]);
     ("n1x0", [(32 # 10)%Q]); ("n1x1", [(32 # 10)%Q]);
     ("u1-pad4", [(31 # 10)%Q]); ("u1-pad2", [(33 # 10)%Q])].

End Demo.

(* --------------------------------------------------------------------- *)
(* Net list and pad configuration                                         *)
(* --------------------------------------------------------------------- *)

Lemma collect_nets_filter items names ns :
  collect_nets items names ns =
    (names ++ (filter (λ p, p.1 ≠ "") items).*1,
     ns ++ (filter (λ p, p.1 ≠ "") items).*2).
Proof.
  revert names ns. induction items as [|[netname net] items IH]; intros names ns.
  - simpl. by rewrite !app_nil_r.
  - simpl. rewrite filter_cons. simpl.
    destruct (decide (netname = "")) as [->|Hne].
    + rewrite IH. destruct (decide ("" ≠ "")); done.
    + rewrite IH. destruct (decide (netname ≠ "")); [|done].
      simpl. by rewrite <- !app_assoc.
Qed.

Lemma select_pads_filter pads netname padnames apads cfg :
  select_pads pads netname (padnames, apads, cfg) =
    (padnames ++ (pad_label <$> filter (λ pad, GetNetname pad = netname) pads),
     apads ++ filter (λ pad, GetNetname pad = netname) pads,
     cfg ++ (fresh_row <$> filter (λ pad, GetNetname pad = netname) pads)).
Proof.
  revert padnames apads cfg.
  induction pads as [|pad pads IH]; intros padnames apads cfg.
  - simpl. by rewrite !app_nil_r.
  - simpl. rewrite filter_cons. destruct (decide (GetNetname pad = netname)).
    + rewrite IH. simpl. by rewrite <- !app_assoc.
    + apply IH.
Qed.

Lemma OnSelectNet_Some st selection netname net :
  netnames st !! selection = Some netname →
  nets st !! selection = Some net →
  OnSelectNet st selection =
    Some {| board := board st; netnames := netnames st; nets := nets st;
            pad_config := fresh_row <$> pads_of_net (board st) netname;
            source_row := -1; start_button := false;
            analysis_netname := Some netname; analysis_net := Some net;
            analysis_padnames :=
              if decide (0 < length (GetPads (board st)))%nat
              then Some (pad_label <$> pads_of_net (board st) netname)
              else analysis_padnames st;
            analysis_pads :=
              if decide (0 < length (GetPads (board st)))%nat
              then Some (pads_of_net (board st) netname)
              else analysis_pads st |}.
Proof.
  intros Hname Hnet. unfold OnSelectNet. rewrite Hname, Hnet. simpl.
  destruct (decide (0 < length (GetPads (board st)))%nat) as [Hpads|Hpads].
  - by rewrite select_pads_filter.
  - unfold pads_of_net.
    destruct (GetPads (board st)); [done|simpl in Hpads; lia].
Qed.

Lemma OnSelectSource_fixed st column row :
  board (OnSelectSource st column row) = board st ∧
  netnames (OnSelectSource st column row) = netnames st ∧
  nets (OnSelectSource st column row) = nets st ∧
  analysis_netname (OnSelectSource st column row) = analysis_netname st ∧
  analysis_net (OnSelectSource st column row) = analysis_net st ∧
  analysis_padnames (OnSelectSource st column row) = analysis_padnames st ∧
  analysis_pads (OnSelectSource st column row) = analysis_pads st.
Proof. unfold OnSelectSource. repeat case_decide; done. Qed.

Lemma handle_fixed st e st' :
  handle st e = Some st' →
  board st' = board st ∧ netnames st' = netnames st ∧ nets st' = nets st.
Proof.
  destruct e as [selection|row|row text|]; simpl; intros H.
  - unfold OnSelectNet in H.
    destruct (netnames st !! selection); [|done].
    destruct (nets st !! selection); [|done]. simpl in H.
    case_decide; [destruct (select_pads _ _ _) as [[??]?]|];
      by simplify_eq.
  - case_decide; [|done]. simplify_eq. unfold toggle_source.
    destruct (OnSelectSource_fixed
      (with_pad_config st (flip_toggle row (pad_config st))) 2 (Z.of_nat row))
      as (-> & -> & -> & _). done.
  - case_decide; [|done]. simplify_eq. unfold edit_current.
    destruct (OnSelectSource_fixed
      (with_pad_config st (SetTextValue1 text row (pad_config st))) 1
      (Z.of_nat row)) as (-> & -> & -> & _). done.
  - by simplify_eq.
Qed.

Lemma reachable_fixed b st :
  reachable b st →
  board st = b ∧
  netnames st = (filter (λ p, p.1 ≠ "") (GetNetsByName b)).*1 ∧
  nets st = (filter (λ p, p.1 ≠ "") (GetNetsByName b)).*2.
Proof.
  induction 1 as [|st e st' _ IH Hstep].
  - unfold init. rewrite collect_nets_filter. done.
  - apply handle_fixed in Hstep as (-> & -> & ->). done.
Qed.

(** C9: the nets with an empty name are left out when the window is
    built; in every state the handlers can reach, netnames and nets have
    the same length and are, index by index, the (name, net) items of the
    board whose name is not empty, in the order of the board; so a
    selection among the choices gives OnSelectNet a name and the net that
    the board has under that name. *)
Theorem net_lists_consistent b st :
  reachable b st →
  ("" ∉ netnames st) ∧
  length (netnames st) = length (nets st) ∧
  zip (netnames st) (nets st) = filter (λ p, p.1 ≠ "") (GetNetsByName b) ∧
  ∀ selection, (selection < length (netnames st))%nat →
    ∃ name net st',
      OnSelectNet st selection = Some st' ∧
      netnames st !! selection = Some name ∧
      nets st !! selection = Some net ∧
      analysis_netname st' = Some name ∧
      analysis_net st' = Some net ∧
      name ≠ "" ∧ (name, net) ∈ GetNetsByName b.
Proof.
  intros Hreach. destruct (reachable_fixed b st Hreach) as (Hb & Hnames & Hnets).
  set (items := filter (λ p : string * Net, p.1 ≠ "") (GetNetsByName b)) in *.
  assert (Hzip : zip (netnames st) (nets st) = items)
    by (rewrite Hnames, Hnets; apply zip_fst_snd).
  split_and!.
  - rewrite Hnames. intros Hin. apply list_elem_of_fmap in Hin as ([name net] & Heq & Hin).
    apply list_elem_of_filter in Hin as [Hne _]. simpl in *. congruence.
  - by rewrite Hnames, Hnets, !length_fmap.
  - done.
  - intros selection Hlt.
    destruct (lookup_lt_is_Some_2 (netnames st) selection Hlt) as [name Hname].
    assert (Hlt' : (selection < length (nets st))%nat)
      by (rewrite Hnets, length_fmap; rewrite Hnames, length_fmap in Hlt; done).
    destruct (lookup_lt_is_Some_2 (nets st) selection Hlt') as [net Hnet].
    eexists name, net, _. split; [by apply OnSelectNet_Some|].
    split_and!; try done.
    + assert (Hin : (name, net) ∈ items).
      { rewrite <- Hzip. apply list_elem_of_lookup. exists selection.
        apply lookup_zip_Some. done. }
      apply list_elem_of_filter in Hin as [Hne _]. done.
    + assert (Hin : (name, net) ∈ items).
      { rewrite <- Hzip. apply list_elem_of_lookup. exists selection.
        apply lookup_zip_Some. done. }
      apply list_elem_of_filter in Hin as [_ Hin]. done.
Qed.

(** C6: a selection among the choices makes pad_config the rows of the
    pads of the board whose net name is the selected name, in the order
    of the board, each with the name <parent-reference>-Pad<pad-number>,
    the current draw "0" and the source toggle off; nothing of the former
    rows is left, source_row is -1 and the button is disabled. *)
Theorem OnSelectNet_pad_config st selection name net :
  netnames st !! selection = Some name →
  nets st !! selection = Some net →
  ∃ st',
    OnSelectNet st selection = Some st' ∧
    analysis_netname st' = Some name ∧
    pad_config st' =
      (λ pad, {| row_name := GetReference pad +:+ "-Pad" +:+ GetPadName pad;
                 row_current := "0"; row_source := false |})
        <$> filter (λ pad, GetNetname pad = name) (GetPads (board st)) ∧
    source_row st' = -1 ∧
    start_button st' = false.
Proof.
  intros Hname Hnet. eexists. split; [by apply OnSelectNet_Some|]. done.
Qed.

(* --------------------------------------------------------------------- *)
(* The source selection                                                   *)
(* --------------------------------------------------------------------- *)

Lemma source_inv_one st : source_inv st → at_most_one_source (pad_config st).
Proof.
  intros (Htoggle & _ & _) i j ri rj Hi Hj Hsi Hsj.
  apply (Htoggle i ri Hi) in Hsi. apply (Htoggle j rj Hj) in Hsj. lia.
Qed.

Lemma source_inv_fresh st pads :
  pad_config st = fresh_row <$> pads → source_row st = -1 →
  start_button st = false → source_inv st.
Proof.
  intros Hcfg Hrow Hbutton. split_and!.
  - intros i r Hi. rewrite Hcfg in Hi.
    apply list_lookup_fmap_Some in Hi as (pad & -> & _). simpl.
    split; [done|lia].
  - by left.
  - rewrite Hbutton, Hrow. split; done.
Qed.

Lemma toggle_source_source_inv st row :
  source_inv st →
  (row < length (pad_config st))%nat →
  source_inv (toggle_source st row).
Proof.
  intros (Htoggle & Hrange & Hbutton) Hlt.
  unfold toggle_source, OnSelectSource, with_pad_config, SetToggleValue,
    flip_toggle. simpl.
  destruct (decide (source_row st = Z.of_nat row)) as [Heq|Hne]; simpl.
  - split_and!; simpl; [|by left|done].
    intros i r Hi. rewrite list_lookup_alter in Hi.
    destruct (decide (row = i)) as [->|Hri].
    + apply fmap_Some in Hi as (r0 & Hr0 & ->). simpl.
      apply Htoggle in Hr0. destruct (row_source r0); simpl; [lia|].
      destruct Hr0 as [_ Hr0]. specialize (Hr0 Heq). done.
    + pose proof (Htoggle i r Hi) as Hir. destruct (row_source r); lia.
  - destruct (decide (source_row st ≠ -1)) as [Hsel|Hnone]; simpl.
    + split_and!; simpl.
      * intros i r Hi. rewrite !list_lookup_alter in Hi.
        destruct (decide (Z.to_nat (source_row st) = i)) as [<-|Hsi].
        -- apply fmap_Some in Hi as (r0 & Hr0 & ->). simpl.
           case_decide; [lia|]. split; [done|lia].
        -- destruct (decide (row = i)) as [->|Hri].
           ++ apply fmap_Some in Hi as (r0 & Hr0 & ->). simpl.
              pose proof (Htoggle i r0 Hr0) as Hir.
              destruct (row_source r0); simpl; [lia|done].
           ++ pose proof (Htoggle i r Hi) as Hir.
              destruct (row_source r); [lia|]. split; [done|lia].
      * right. rewrite !length_alter. lia.
      * split; [lia|done].
    + assert (Hrow : source_row st = -1) by lia. split_and!; simpl.
      * intros i r Hi. rewrite list_lookup_alter in Hi.
        destruct (decide (row = i)) as [->|Hri].
        -- apply fmap_Some in Hi as (r0 & Hr0 & ->). simpl.
           pose proof (Htoggle i r0 Hr0) as Hir.
           destruct (row_source r0); simpl; [lia|done].
        -- pose proof (Htoggle i r Hi) as Hir.
           destruct (row_source r); [lia|]. split; [done|lia].
      * right. rewrite length_alter. lia.
      * split; [lia|done].
Qed.

(** C8: when the toggles, source_row and the button agree (a row has its
    toggle on exactly when source_row is its index, source_row is -1 or
    the index of a row, the button is enabled exactly when source_row is
    not -1), they still agree after a click on the toggle of a row and the
    handler that follows it, and at most one toggle is on. A click on the
    selected row leaves no row selected and the button disabled; a click
    on another row selects it, enables the button and turns the toggle of
    the row that was selected off. *)
Theorem toggle_source_invariant st row :
  source_inv st →
  (row < length (pad_config st))%nat →
  source_inv (toggle_source st row) ∧
  at_most_one_source (pad_config (toggle_source st row)) ∧
  (source_row st = Z.of_nat row →
     source_row (toggle_source st row) = -1 ∧
     start_button (toggle_source st row) = false ∧
     ∀ i r, pad_config (toggle_source st row) !! i = Some r →
       row_source r = false) ∧
  (source_row st ≠ Z.of_nat row →
     source_row (toggle_source st row) = Z.of_nat row ∧
     start_button (toggle_source st row) = true ∧
     GetToggleValue (pad_config (toggle_source st row)) row = Some true ∧
     (source_row st ≠ -1 →
        GetToggleValue (pad_config (toggle_source st row))
          (Z.to_nat (source_row st)) = Some false)).
Proof.
  intros Hst Hlt.
  pose proof (toggle_source_source_inv st row Hst Hlt) as Hinv.
  destruct Hst as (Htoggle & Hrange & Hbutton).
  split; [done|]. split; [by apply source_inv_one|].
  destruct Hinv as (Htoggle' & _ & _). split.
  - intros Heq.
    assert (Hsrc : source_row (toggle_source st row) = -1)
      by (unfold toggle_source, OnSelectSource; simpl; by rewrite decide_True).
    split; [done|]. split.
    + unfold toggle_source, OnSelectSource. simpl. by rewrite decide_True.
    + intros i r Hi. pose proof (Htoggle' i r Hi) as Hir.
      destruct (row_source r); lia.
  - intros Hne.
    assert (Hsrc : source_row (toggle_source st row) = Z.of_nat row).
    { unfold toggle_source, OnSelectSource. simpl.
      rewrite decide_False by done. case_decide; done. }
    assert (Hlen : length (pad_config (toggle_source st row))
                   = length (pad_config st)).
    { unfold toggle_source, OnSelectSource, SetToggleValue, flip_toggle. simpl.
      rewrite decide_False by done. case_decide; simpl;
        by rewrite ?length_alter. }
    split; [done|]. split.
    + unfold toggle_source, OnSelectSource. simpl.
      rewrite decide_False by done. case_decide; done.
    + split.
      * unfold GetToggleValue.
        destruct (lookup_lt_is_Some_2 (pad_config (toggle_source st row)) row)
          as [r Hr]; [lia|].
        rewrite Hr. simpl. f_equal. apply (Htoggle' row r Hr). done.
      * intros Hsel. unfold GetToggleValue.
        destruct (lookup_lt_is_Some_2 (pad_config (toggle_source st row))
                    (Z.to_nat (source_row st))) as [r Hr]; [lia|].
        rewrite Hr. simpl. f_equal.
        pose proof (Htoggle' _ r Hr) as Hir. destruct (row_source r); lia.
Qed.

Lemma edit_current_source_inv st row text :
  source_inv st → source_inv (edit_current st row text).
Proof.
  intros (Htoggle & Hrange & Hbutton).
  unfold edit_current, OnSelectSource, with_pad_config, SetTextValue1. simpl.
  split_and!; simpl; [|by rewrite length_alter|done].
  intros i r Hi. rewrite list_lookup_alter in Hi.
  destruct (decide (row = i)) as [->|Hri]; [|by apply Htoggle].
  apply fmap_Some in Hi as (r0 & Hr0 & ->). simpl. by apply Htoggle.
Qed.

Lemma reachable_source_inv b st : reachable b st → source_inv st.
Proof.
  induction 1 as [|st e st' Hreach IH Hstep].
  - unfold init. rewrite collect_nets_filter.
    by apply (source_inv_fresh _ []).
  - destruct e as [selection|row|row text|]; simpl in Hstep.
    + destruct (netnames st !! selection) as [name|] eqn:Hname;
        [|unfold OnSelectNet in Hstep; by rewrite Hname in Hstep].
      destruct (nets st !! selection) as [net|] eqn:Hnet;
        [|unfold OnSelectNet in Hstep; by rewrite Hname, Hnet in Hstep].
      rewrite (OnSelectNet_Some st selection name net) in Hstep by done.
      simplify_eq. by eapply source_inv_fresh.
    + case_decide; [|done]. simplify_eq.
      by apply toggle_source_source_inv.
    + case_decide; [|done]. simplify_eq. by apply edit_current_source_inv.
    + by simplify_eq.
Qed.

Lemma row_name_alter (f : Row → Row) (row : nat) (cfg : list Row) :
  (∀ r, row_name (f r) = row_name r) →
  row_name <$> alter f row cfg = row_name <$> cfg.
Proof.
  intros Hf. rewrite (list_fmap_alter row_name f id)
    by (apply Forall_forall; intros; apply Hf).
  by apply list_alter_id.
Qed.

Lemma toggle_source_names st row :
  row_name <$> pad_config (toggle_source st row) = row_name <$> pad_config st.
Proof.
  unfold toggle_source, OnSelectSource, SetToggleValue, flip_toggle. simpl.
  repeat case_decide; simpl; by rewrite !row_name_alter.
Qed.

Lemma edit_current_names st row text :
  row_name <$> pad_config (edit_current st row text) = row_name <$> pad_config st.
Proof.
  unfold edit_current, OnSelectSource, SetTextValue1. simpl.
  by rewrite row_name_alter.
Qed.

Lemma configured_same st st' :
  board st' = board st →
  analysis_netname st' = analysis_netname st →
  analysis_net st' = analysis_net st →
  analysis_padnames st' = analysis_padnames st →
  analysis_pads st' = analysis_pads st →
  row_name <$> pad_config st' = row_name <$> pad_config st →
  pad_config st = [] ∨ configured st →
  pad_config st' = [] ∨ configured st'.
Proof.
  intros Hb Hname Hnet Hpadnames Hpads Hrows [Hnil|(name & net & H)].
  - left. rewrite Hnil in Hrows. by apply fmap_nil_inv in Hrows.
  - right. exists name, net. rewrite Hb, Hname, Hnet, Hpadnames, Hpads, Hrows.
    done.
Qed.

Lemma reachable_configured b st :
  reachable b st → pad_config st = [] ∨ configured st.
Proof.
  induction 1 as [|st e st' Hreach IH Hstep].
  - left. unfold init. by rewrite collect_nets_filter.
  - destruct e as [selection|row|row text|]; simpl in Hstep.
    + destruct (netnames st !! selection) as [name|] eqn:Hname;
        [|unfold OnSelectNet in Hstep; by rewrite Hname in Hstep].
      destruct (nets st !! selection) as [net|] eqn:Hnet;
        [|unfold OnSelectNet in Hstep; by rewrite Hname, Hnet in Hstep].
      rewrite (OnSelectNet_Some st selection name net) in Hstep by done.
      simplify_eq.
      destruct (decide (0 < length (GetPads (board st)))%nat) as [Hpads|Hpads].
      * right. exists name, net. simpl.
        split_and!; try done. rewrite <- list_fmap_compose. done.
      * left. simpl. unfold pads_of_net.
        destruct (GetPads (board st)); [done|simpl in Hpads; lia].
    + case_decide; [|done]. simplify_eq.
      destruct (OnSelectSource_fixed
        (with_pad_config st (flip_toggle row (pad_config st))) 2 (Z.of_nat row))
        as (? & _ & _ & ? & ? & ? & ?).
      eapply configured_same; [..|exact IH]; try done.
      apply toggle_source_names.
    + case_decide; [|done]. simplify_eq.
      destruct (OnSelectSource_fixed
        (with_pad_config st (SetTextValue1 text row (pad_config st))) 1
        (Z.of_nat row)) as (? & _ & _ & ? & ? & ? & ?).
      eapply configured_same; [..|exact IH]; try done.
      apply edit_current_names.
    + by simplify_eq.
Qed.

Lemma reachable_ready b st :
  reachable b st → source_row st ≠ -1 → ready st.
Proof.
  intros Hreach Hsel.
  destruct (reachable_source_inv b st Hreach) as (_ & [?|Hrange] & _); [done|].
  destruct (reachable_configured b st Hreach) as [Hnil|Hcfg].
  - rewrite Hnil in Hrange. simpl in Hrange. lia.
  - done.
Qed.

Lemma configured_lengths st :
  configured st →
  ∃ pads padnames,
    analysis_pads st = Some pads ∧ analysis_padnames st = Some padnames ∧
    length pads = length (pad_config st) ∧
    length padnames = length (pad_config st) ∧
    is_Some (analysis_net st) ∧ is_Some (analysis_netname st).
Proof.
  intros (name & net & Hname & Hnet & Hpads & Hpadnames & Hrows).
  eexists _, _. split; [done|]. split; [done|].
  apply (f_equal length) in Hrows. rewrite !length_fmap in Hrows.
  rewrite length_fmap. rewrite Hname, Hnet. eauto.
Qed.

Lemma pad_label_nonempty pad : pad_label pad ≠ "".
Proof.
  unfold pad_label, format_padname. destruct (GetReference pad); done.
Qed.

Lemma configured_names st r :
  configured st → r ∈ pad_config st → row_name r ≠ "".
Proof.
  intros (name & net & _ & _ & _ & _ & Hrows) Hin.
  apply (list_elem_of_fmap_2 row_name) in Hin. rewrite Hrows in Hin.
  apply list_elem_of_fmap in Hin as (pad & -> & _). apply pad_label_nonempty.
Qed.

(* --------------------------------------------------------------------- *)
(* The netlist                                                            *)
(* --------------------------------------------------------------------- *)

Lemma resistor_lines_app n ps qs :
  resistor_lines n (ps ++ qs) =
    resistor_lines n ps ++ resistor_lines (n + length ps) qs.
Proof.
  unfold resistor_lines. rewrite imap_app. f_equal.
  apply imap_ext. intros k p _. simpl. by rewrite Nat.add_assoc.
Qed.

(* A loop whose body appends the lines of [pairs k] appends those of all
   the indices. *)
Lemma for_each_lines (body : nat → list string * nat → option (list string * nat))
    (pairs : nat → list (string * string)) (indices : list nat) :
  (∀ k lines n, k ∈ indices →
     body k (lines, n) =
       Some (lines ++ resistor_lines n (pairs k), (n + length (pairs k))%nat)) →
  ∀ lines n,
    for_each body indices (lines, n) =
      Some (lines ++ resistor_lines n (indices ≫= pairs),
            (n + length (indices ≫= pairs))%nat).
Proof.
  induction indices as [|k indices IH]; intros Hbody lines n.
  - simpl. by rewrite app_nil_r, Nat.add_0_r.
  - simpl. rewrite Hbody by left. simpl.
    rewrite IH by (intros; apply Hbody; by right).
    rewrite resistor_lines_app, length_app, <- app_assoc, Nat.add_assoc. done.
Qed.

Lemma node_at_is_Some {A} (nodes : list (list A)) w i j :
  rectangular nodes w → (i < length nodes)%nat → (j < w)%nat →
  is_Some (line ← nodes !! i; line !! j).
Proof.
  intros Hrect Hi Hj.
  destruct (lookup_lt_is_Some_2 nodes i Hi) as [line Hline].
  rewrite Hline. simpl. apply lookup_lt_is_Some_2.
  rewrite (Hrect line); [done|]. by eapply list_elem_of_lookup_2.
Qed.

Lemma connect_lines nodes i j i' j' a b lines n :
  node_at nodes i j = Some a → node_at nodes i' j' = Some b →
  connect nodes i j i' j' (lines, n) =
    Some (if decide (b ≠ "") then (lines ++ [format_resistor n a b], S n)
          else (lines, n)).
Proof.
  intros Ha Hb. unfold connect. rewrite Hb. simpl.
  case_decide; [|done]. rewrite Ha. done.
Qed.

Lemma stencil_lines nodes w i j lines n :
  rectangular nodes w → interior nodes w i j →
  stencil nodes i j (lines, n) =
    Some (lines ++ resistor_lines n (stencil_pairs nodes i j),
          (n + length (stencil_pairs nodes i j))%nat).
Proof.
  intros Hrect (Hi1 & Hi2 & Hj1 & Hj2).
  destruct (node_at_is_Some nodes w i j Hrect) as [a Ha]; [lia..|].
  destruct (node_at_is_Some nodes w (i + 1) j Hrect) as [b1 Hb1]; [lia..|].
  destruct (node_at_is_Some nodes w i (j + 1) Hrect) as [b2 Hb2]; [lia..|].
  destruct (node_at_is_Some nodes w (i - 1) j Hrect) as [b3 Hb3]; [lia..|].
  destruct (node_at_is_Some nodes w i (j - 1) Hrect) as [b4 Hb4]; [lia..|].
  fold (node_at nodes i j) in Ha. fold (node_at nodes (i + 1) j) in Hb1.
  fold (node_at nodes i (j + 1)) in Hb2. fold (node_at nodes (i - 1) j) in Hb3.
  fold (node_at nodes i (j - 1)) in Hb4.
  unfold stencil, stencil_pairs, neighbours. rewrite Ha. simpl.
  destruct (decide (a ≠ "")) as [Hon|Hoff].
  - rewrite (connect_lines nodes i j (i + 1) j a b1) by done. simpl.
    rewrite Hb1, Hb2, Hb3, Hb4.
    destruct (decide (b1 ≠ "")); simpl;
      rewrite (connect_lines nodes i j i (j + 1) a b2) by done;
      destruct (decide (b2 ≠ "")); simpl;
      rewrite (connect_lines nodes i j (i - 1) j a b3) by done;
      destruct (decide (b3 ≠ "")); simpl;
      rewrite (connect_lines nodes i j i (j - 1) a b4) by done;
      destruct (decide (b4 ≠ "")); simpl;
      unfold resistor_lines; simpl; rewrite <- ?app_assoc; simpl;
      rewrite ?app_nil_r, ?Nat.add_succ_r, ?Nat.add_0_r; done.
  - simpl. by rewrite app_nil_r, Nat.add_0_r.
Qed.

Lemma resistors_lines nodes w lines n :
  rectangular nodes w →
  resistors nodes (lines, n) =
    Some (lines ++ resistor_lines n (resistor_pairs nodes w),
          (n + length (resistor_pairs nodes w))%nat).
Proof.
  intros Hrect. unfold resistors, resistor_pairs.
  apply (for_each_lines _
    (λ i, seq 1 (w - 1 - 1) ≫= λ j, stencil_pairs nodes i j)).
  intros i lines' n' Hi. apply elem_of_seq in Hi.
  destruct (nodes !! 0%nat) as [line0|] eqn:Hline0.
  - simpl. rewrite (Hrect line0) by (by eapply list_elem_of_lookup_2).
    apply (for_each_lines _ (λ j, stencil_pairs nodes i j)).
    intros j lines'' n'' Hj. apply elem_of_seq in Hj.
    apply (stencil_lines nodes w); [done|]. unfold interior. lia.
  - apply lookup_ge_None in Hline0. lia.
Qed.

Lemma current_sources_lines cfg rows padnames netlist :
  length padnames = length rows →
  current_sources (cfg ++ rows) padnames (length cfg) netlist =
    Some (netlist ++ current_lines rows (length cfg)).
Proof.
  revert cfg rows netlist.
  induction padnames as [|padname padnames IH]; intros cfg rows netlist Hlen.
  - destruct rows; [|done]. simpl. by rewrite app_nil_r.
  - destruct rows as [|r rows]; [done|]. simpl in Hlen. simpl.
    unfold GetTextValue1, GetTextValue0.
    rewrite (list_lookup_middle cfg rows r (length cfg)) by done. simpl.
    replace (cfg ++ r :: rows) with ((cfg ++ [r]) ++ rows)
      by (by rewrite <- app_assoc).
    replace (S (length cfg)) with (length (cfg ++ [r]))
      by (rewrite length_app; simpl; lia).
    case_decide; rewrite IH by lia; [|done]. by rewrite <- app_assoc.
Qed.

Lemma current_lines_elem cfg rows l :
  l ∈ current_lines rows (length cfg) ↔
  ∃ i r, (cfg ++ rows) !! i = Some r ∧ (length cfg ≤ i)%nat ∧
    row_current r ≠ "0" ∧
    l = format_current_source i (row_name r) (row_current r).
Proof.
  revert cfg. induction rows as [|r rows IH]; intros cfg.
  - simpl. split; [by intros ?%elem_of_nil|].
    intros (i & r & Hi & Hle & _). rewrite app_nil_r in Hi.
    apply lookup_lt_Some in Hi. lia.
  - simpl. rewrite elem_of_app.
    replace (S (length cfg)) with (length (cfg ++ [r]))
      by (rewrite length_app; simpl; lia).
    rewrite (IH (cfg ++ [r])). rewrite <- app_assoc. simpl. split.
    + intros [Hl|(i & r' & Hi & Hle & Hr' & ->)].
      * case_decide; [|by apply elem_of_nil in Hl].
        apply list_elem_of_singleton in Hl as ->.
        exists (length cfg), r.
        by rewrite (list_lookup_middle cfg rows r (length cfg)).
      * exists i, r'. rewrite length_app in Hle. simpl in Hle.
        split_and!; [done|lia|done..].
    + intros (i & r' & Hi & Hle & Hr' & ->).
      destruct (decide (i = length cfg)) as [->|Hne].
      * rewrite (list_lookup_middle cfg rows r (length cfg)) in Hi by done.
        simplify_eq. left. rewrite decide_True by done.
        by apply list_elem_of_singleton.
      * right. exists i, r'. rewrite length_app. simpl.
        split_and!; [done|lia|done..].
Qed.

Lemma create_netlist_lines st nodes w src padnames :
  rectangular nodes w →
  0 ≤ source_row st →
  pad_config st !! Z.to_nat (source_row st) = Some src →
  analysis_padnames st = Some padnames →
  length padnames = length (pad_config st) →
  create_netlist st nodes =
    Some (["analysis"] ++ resistor_lines 1 (resistor_pairs nodes w)
          ++ [format_voltage_source (row_name src)]
          ++ current_lines (pad_config st) 0 ++ [".op"; ".end"]).
Proof.
  intros Hrect Hsel Hsrc Hpadnames Hlen. unfold create_netlist.
  rewrite (resistors_lines nodes w) by done. simpl.
  rewrite decide_True by done. unfold GetTextValue0. rewrite Hsrc. simpl.
  rewrite Hpadnames. simpl.
  rewrite (current_sources_lines [] (pad_config st)) by done. simpl.
  rewrite <- !app_assoc. done.
Qed.

Lemma format_resistor_head n a b : ∃ rest, format_resistor n a b = String "R" rest.
Proof. unfold format_resistor. simpl. eauto. Qed.

Lemma resistor_lines_elem n pairs l :
  l ∈ resistor_lines n pairs ↔
  ∃ k p, pairs !! k = Some p ∧ l = format_resistor (n + k) p.1 p.2.
Proof.
  unfold resistor_lines. rewrite list_elem_of_lookup. split.
  - intros (k & Hk). rewrite list_lookup_imap in Hk.
    apply fmap_Some in Hk as (p & Hp & ->). eauto.
  - intros (k & p & Hp & ->). exists k. rewrite list_lookup_imap, Hp. done.
Qed.

Lemma stencil_pairs_elem nodes i j a b :
  (a, b) ∈ stencil_pairs nodes i j ↔
  node_at nodes i j = Some a ∧ a ≠ "" ∧
  ∃ p, p ∈ neighbours i j ∧ node_at nodes p.1 p.2 = Some b ∧ b ≠ "".
Proof.
  unfold stencil_pairs. destruct (node_at nodes i j) as [a'|] eqn:Ha.
  - destruct (decide (a' ≠ "")) as [Hon|Hoff].
    + rewrite list_elem_of_omap. split.
      * intros (p & Hp & Hb). destruct (node_at nodes p.1 p.2) as [b'|] eqn:Hb';
          [|done]. case_decide; [|done]. simplify_eq. eauto 10.
      * intros (? & ? & p & Hp & Hb & Hbon). simplify_eq. exists p.
        split; [done|]. rewrite Hb. by rewrite decide_True.
    + split; [by intros ?%elem_of_nil|]. intros (? & ? & _). by simplify_eq.
  - split; [by intros ?%elem_of_nil|]. intros (? & _). done.
Qed.

Lemma resistor_pairs_elem nodes w a b :
  (a, b) ∈ resistor_pairs nodes w ↔
  ∃ i j p, interior nodes w i j ∧ p ∈ neighbours i j ∧
    node_at nodes i j = Some a ∧ a ≠ "" ∧
    node_at nodes p.1 p.2 = Some b ∧ b ≠ "".
Proof.
  unfold resistor_pairs, interior. rewrite list_elem_of_bind. split.
  - intros (i & Hj & Hi). apply list_elem_of_bind in Hj as (j & Hab & Hj).
    apply elem_of_seq in Hi. apply elem_of_seq in Hj.
    apply stencil_pairs_elem in Hab as (Ha & Hon & p & Hp & Hb & Hbon).
    exists i, j, p. split_and!; try done; lia.
  - intros (i & j & p & (? & ? & ? & ?) & Hp & Ha & Hon & Hb & Hbon).
    exists i. split; [|apply elem_of_seq; lia].
    apply list_elem_of_bind. exists j. split; [|apply elem_of_seq; lia].
    apply stencil_pairs_elem. eauto 10.
Qed.

(* --------------------------------------------------------------------- *)
(* The grid                                                               *)
(* --------------------------------------------------------------------- *)

Lemma scan_pads_first cfg pads index nd :
  (index + length pads ≤ length cfg)%nat →
  ∃ nd', scan_pads cfg pads index nd = Some nd' ∧
    test_point nd' = test_point nd ∧
    match list_find (pad_hit (test_point nd).1 (test_point nd).2) pads with
    | Some (k, _) =>
        node_on_net nd' = true ∧
        node_name nd' = pad_node_name cfg (index + k) (node_name nd) ∧
        hit_tests nd' = hit_tests nd ++ (ProbePad <$> seq index (S k))
    | None =>
        node_on_net nd' = node_on_net nd ∧
        node_name nd' = node_name nd ∧
        hit_tests nd' = hit_tests nd ++ (ProbePad <$> seq index (length pads))
    end.
Proof.
  revert index nd. induction pads as [|pad pads IH]; intros index nd Hlen.
  - exists nd. simpl. by rewrite app_nil_r.
  - simpl in Hlen. simpl.
    destruct (decide (pad_hit (test_point nd).1 (test_point nd).2 pad))
      as [Hhit|Hmiss].
    + unfold pad_hit in Hhit. rewrite Hhit.
      destruct (lookup_lt_is_Some_2 cfg index) as [r Hr]; [lia|].
      unfold GetTextValue1, GetToggleValue, GetTextValue0, pad_node_name.
      rewrite Nat.add_0_r, Hr. simpl.
      destruct (decide (row_current r ≠ "0")); simpl.
      * eexists. split; [done|]. done.
      * destruct (row_source r); simpl; eexists; (split; [done|]); done.
    + apply not_true_is_false in Hmiss. rewrite Hmiss.
      destruct (IH (S index) (probed (ProbePad index) nd)) as (nd' & -> & Hpt & H);
        [lia|].
      exists nd'. split; [done|]. split; [done|]. simpl in H.
      destruct (list_find _ pads) as [[k pad']|]; simpl.
      * destruct H as (-> & -> & ->). rewrite <- app_assoc.
        replace (index + S k)%nat with (S index + k)%nat by lia. done.
      * destruct H as (-> & -> & ->). by rewrite <- app_assoc.
Qed.

Lemma scan_tracks_first tracks index nd :
  test_point (scan_tracks tracks index nd) = test_point nd ∧
  node_name (scan_tracks tracks index nd) = node_name nd ∧
  match list_find (track_hit (test_point nd).1 (test_point nd).2) tracks with
  | Some (k, _) =>
      node_on_net (scan_tracks tracks index nd) = true ∧
      hit_tests (scan_tracks tracks index nd) =
        hit_tests nd ++ (ProbeTrack <$> seq index (S k))
  | None =>
      node_on_net (scan_tracks tracks index nd) = node_on_net nd ∧
      hit_tests (scan_tracks tracks index nd) =
        hit_tests nd ++ (ProbeTrack <$> seq index (length tracks))
  end.
Proof.
  revert index nd. induction tracks as [|track tracks IH]; intros index nd.
  - simpl. by rewrite app_nil_r.
  - simpl.
    destruct (decide (track_hit (test_point nd).1 (test_point nd).2 track))
      as [Hhit|Hmiss].
    + unfold track_hit in Hhit. rewrite Hhit. done.
    + apply not_true_is_false in Hmiss. rewrite Hmiss.
      destruct (IH (S index) (probed (ProbeTrack index) nd)) as (-> & -> & H).
      split; [done|]. split; [done|]. simpl in H.
      destruct (list_find _ tracks) as [[k track']|]; simpl;
        destruct H as (-> & ->); by rewrite <- app_assoc.
Qed.

Lemma create_node_first cfg pads tracks i j x y :
  (length pads ≤ length cfg)%nat →
  ∃ nd, create_node cfg (Some pads) tracks i j x y = Some nd ∧
    test_point nd = (x, y) ∧
    node_on_net nd =
      bool_decide (is_Some (list_find (pad_hit x y) pads) ∨
                   is_Some (list_find (track_hit x y) tracks)) ∧
    node_name nd =
      match list_find (pad_hit x y) pads with
      | Some (k, _) => pad_node_name cfg k (format_node_name i j)
      | None => format_node_name i j
      end ∧
    hit_tests nd = expected_hit_tests pads tracks x y.
Proof.
  intros Hlen. unfold create_node, expected_hit_tests. simpl.
  destruct (scan_pads_first cfg pads 0
    {| test_point := (x, y); node_name := format_node_name i j;
       node_on_net := false; hit_tests := [] |}) as (nd & -> & Hpt & H);
    [simpl; lia|].
  simpl in *. destruct (list_find (pad_hit x y) pads) as [[k pad]|].
  - destruct H as (Hon & Hname & Hprobes). rewrite Hon. exists nd.
    split; [done|]. split; [done|]. split; [|done].
    rewrite Hon. symmetry. apply bool_decide_eq_true. left. eauto.
  - destruct H as (Hon & Hname & Hprobes). rewrite Hon. eexists.
    split; [done|].
    destruct (scan_tracks_first tracks 0 nd) as (-> & -> & H).
    rewrite Hpt. split; [done|]. rewrite Hpt in H. simpl in H.
    destruct (list_find (track_hit x y) tracks) as [[k track]|].
    + destruct H as (-> & ->). rewrite Hprobes. split; [|done].
      symmetry. apply bool_decide_eq_true. right. eauto.
    + destruct H as (-> & ->). rewrite Hprobes, Hon. split; [|done].
      symmetry. apply bool_decide_eq_false.
      intros [[? ?]|[? ?]]; done.
Qed.

Lemma create_line_nodes cfg pads tracks i x ys j0 :
  (length pads ≤ length cfg)%nat →
  ∃ line, create_line cfg (Some pads) tracks i x ys j0 = Some line ∧
    length line = length ys ∧
    ∀ k y, ys !! k = Some y →
      ∃ nd, line !! k = Some nd ∧
        create_node cfg (Some pads) tracks i (j0 + k) x y = Some nd.
Proof.
  intros Hlen. revert j0. induction ys as [|y ys IH]; intros j0.
  - exists []. done.
  - destruct (create_node_first cfg pads tracks i j0 x y Hlen) as (nd & Hnd & _).
    destruct (IH (S j0)) as (line & Hline & Hlength & Hnodes).
    exists (nd :: line). cbn [create_line]. rewrite Hnd, Hline.
    split; [done|]. split; [simpl; lia|].
    intros [|k] y' Hy; simpl in Hy.
    + simplify_eq. exists nd. by rewrite Nat.add_0_r.
    + destruct (Hnodes k y' Hy) as (nd' & Hk & Hnd'). exists nd'.
      split; [done|]. by replace (j0 + S k)%nat with (S j0 + k)%nat by lia.
Qed.

Lemma create_lines_nodes cfg pads tracks xs ys i0 :
  (length pads ≤ length cfg)%nat →
  ∃ grid, create_lines cfg (Some pads) tracks xs ys i0 = Some grid ∧
    length grid = length xs ∧
    rectangular grid (length ys) ∧
    ∀ k l x y, xs !! k = Some x → ys !! l = Some y →
      ∃ line nd, grid !! k = Some line ∧ line !! l = Some nd ∧
        create_node cfg (Some pads) tracks (i0 + k) l x y = Some nd.
Proof.
  intros Hlen. revert i0. induction xs as [|x xs IH]; intros i0.
  - exists []. split; [done|]. split; [done|]. split; [|done].
    by intros line ?%elem_of_nil.
  - destruct (create_line_nodes cfg pads tracks i0 x ys 0 Hlen)
      as (line & Hline & Hlength & Hnodes).
    destruct (IH (S i0)) as (grid & Hgrid & Hglength & Hrect & Hgnodes).
    exists (line :: grid). cbn [create_lines]. rewrite Hline, Hgrid.
    split; [done|]. split; [simpl; lia|]. split.
    + intros line' [->|Hin]%elem_of_cons; [done|by apply Hrect].
    + intros [|k] l x' y Hx Hy; simpl in Hx.
      * simplify_eq. destruct (Hnodes l y Hy) as (nd & Hl & Hnd).
        exists line, nd. by rewrite Nat.add_0_r.
      * destruct (Hgnodes k l x' y Hx Hy) as (line' & nd & Hk & Hl & Hnd).
        exists line', nd. split; [done|]. split; [done|].
        by replace (i0 + S k)%nat with (S i0 + k)%nat by lia.
Qed.

Lemma py_range_lookup start stop step k x :
  0 < step →
  py_range start stop step !! k = Some x ↔
  x = start + Z.of_nat k * step ∧ x < stop.
Proof.
  intros Hstep. unfold py_range. rewrite list_lookup_fmap.
  set (q := (stop - start + step - 1) `div` step).
  assert (Hq : (k < Z.to_nat q)%nat ↔ start + Z.of_nat k * step < stop).
  { pose proof (Z.mul_div_le (stop - start + step - 1) step Hstep) as Hlo.
    pose proof (Z.mul_succ_div_gt (stop - start + step - 1) step Hstep) as Hhi.
    fold q in Hlo, Hhi. split; intros H; [|apply Nat2Z.inj_lt]; nia. }
  split.
  - intros Hk. apply fmap_Some in Hk as (k' & Hk' & ->).
    apply lookup_seq in Hk' as [-> Hlt]. simpl. split; [done|]. by apply Hq.
  - intros [-> Hlt]. apply Hq in Hlt.
    rewrite lookup_seq_lt by done. done.
Qed.

Lemma py_range_length start stop step k :
  0 < step →
  (k < length (py_range start stop step))%nat ↔
  start + Z.of_nat k * step < stop.
Proof.
  intros Hstep. rewrite <- lookup_lt_is_Some. split.
  - intros [x Hx]. apply py_range_lookup in Hx as [-> ?]; done.
  - intros Hlt. eexists. by apply py_range_lookup.
Qed.

(* The grid of a state that is ready: run_analysis computes it, and each
   of its nodes is what create_node gives at the point of its index. *)
Lemma create_nodes_ready st :
  ready st →
  ∃ name net grid,
    analysis_netname st = Some name ∧ analysis_net st = Some net ∧
    analysis_pads st = Some (pads_of_net (board st) name) ∧
    (length (pads_of_net (board st) name) ≤ length (pad_config st))%nat ∧
    create_nodes st = Some grid ∧
    length grid = length (grid_xs (board st)) ∧
    rectangular grid (length (grid_ys (board st))) ∧
    ∀ i j, grid_node grid i j =
      (x ← grid_xs (board st) !! i; y ← grid_ys (board st) !! j;
       create_node (pad_config st) (Some (pads_of_net (board st) name))
         (TracksInNet (board st) (GetNet net)) i j x y).
Proof.
  intros [(name & net & Hname & Hnet & Hpads & Hpadnames & Hrows) _].
  assert (Hle : (length (pads_of_net (board st) name)
                 ≤ length (pad_config st))%nat).
  { apply (f_equal length) in Hrows. rewrite !length_fmap in Hrows. lia. }
  destruct (create_lines_nodes (pad_config st) (pads_of_net (board st) name)
    (TracksInNet (board st) (GetNet net)) (grid_xs (board st))
    (grid_ys (board st)) 0 Hle) as (grid & Hgrid & Hlength & Hrect & Hnodes).
  exists name, net, grid. split_and!; try done.
  - unfold create_nodes. rewrite Hnet, Hpads. done.
  - intros i j. unfold grid_node.
    destruct (grid_xs (board st) !! i) as [x|] eqn:Hx; simpl.
    + destruct (grid_ys (board st) !! j) as [y|] eqn:Hy; simpl.
      * destruct (Hnodes i j x y Hx Hy) as (line & nd & -> & Hj & Hnd).
        simpl in Hnd. by rewrite Hnd.
      * apply lookup_ge_None in Hy.
        destruct (grid !! i) as [line|] eqn:Hline; [|done]. simpl.
        apply lookup_ge_None. rewrite (Hrect line); [done|].
        by eapply list_elem_of_lookup_2.
    + apply lookup_ge_None in Hx.
      rewrite (proj2 (lookup_ge_None grid i)) by lia. done.
Qed.

Lemma node_names_rectangular grid w :
  rectangular grid w → rectangular (node_names grid) w.
Proof.
  intros Hrect names Hin. unfold node_names in Hin.
  apply list_elem_of_fmap in Hin as (line & -> & Hin).
  rewrite length_fmap. by apply Hrect.
Qed.

Lemma node_at_names grid i j :
  node_at (node_names grid) i j = node_entry <$> grid_node grid i j.
Proof.
  unfold node_at, node_names, grid_node. rewrite list_lookup_fmap.
  destruct (grid !! i) as [line|]; [|done]. simpl.
  by rewrite list_lookup_fmap.
Qed.

(* The netlist of a state that is ready. *)
Lemma create_netlist_ready st :
  ready st →
  ∃ grid src,
    create_nodes st = Some grid ∧
    rectangular (node_names grid) (length (grid_ys (board st))) ∧
    pad_config st !! Z.to_nat (source_row st) = Some src ∧
    create_netlist st (node_names grid) =
      Some (["analysis"]
            ++ resistor_lines 1
                 (resistor_pairs (node_names grid) (length (grid_ys (board st))))
            ++ [format_voltage_source (row_name src)]
            ++ current_lines (pad_config st) 0 ++ [".op"; ".end"]).
Proof.
  intros Hready.
  destruct (create_nodes_ready st Hready)
    as (name & net & grid & _ & _ & _ & _ & Hgrid & _ & Hrect & _).
  destruct Hready as [Hcfg Hrange].
  destruct (configured_lengths st Hcfg)
    as (pads & padnames & _ & Hpadnames & _ & Hlen & _).
  destruct (lookup_lt_is_Some_2 (pad_config st) (Z.to_nat (source_row st)))
    as [src Hsrc]; [lia|].
  exists grid, src. split; [done|].
  split; [by apply node_names_rectangular|]. split; [done|].
  apply (create_netlist_lines st _ _ src padnames); try done.
  - by apply node_names_rectangular.
  - lia.
Qed.

Lemma demo_reachable : reachable Demo.demo_board Demo.demo_state.
Proof.
  eapply (reachable_step _ _ (EditCurrent 2 "0.5"));
    [eapply (reachable_step _ _ (ToggleSource 1));
       [eapply (reachable_step _ _ (SelectNet 1)); [apply reachable_init|]|]|];
    reflexivity.
Qed.

Lemma demo_ready : ready Demo.demo_state.
Proof. apply (reachable_ready _ _ demo_reachable). done. Qed.

Lemma edge_ready : ready Demo.edge_state.
Proof.
  apply (reachable_ready Demo.edge_board); [|done].
  eapply (reachable_step _ _ (ToggleSource 0));
    [eapply (reachable_step _ _ (SelectNet 0)); [apply reachable_init|]|];
    reflexivity.
Qed.

Lemma wide_ready : ready Demo.wide_state.
Proof.
  apply (reachable_ready Demo.wide_board); [|done].
  eapply (reachable_step _ _ (ToggleSource 0));
    [eapply (reachable_step _ _ (SelectNet 0)); [apply reachable_init|]|];
    reflexivity.
Qed.

Lemma flat_ready : ready Demo.flat_state.
Proof.
  apply (reachable_ready Demo.flat_board); [|done].
  eapply (reachable_step _ _ (ToggleSource 0));
    [eapply (reachable_step _ _ (SelectNet 0)); [apply reachable_init|]|];
    reflexivity.
Qed.

(* No line of the netlist but a resistor line starts with R. *)
Lemma netlist_resistor_line st nodes w src l rest :
  l ∈ ["analysis"] ++ resistor_lines 1 (resistor_pairs nodes w)
      ++ [format_voltage_source (row_name src)]
      ++ current_lines (pad_config st) 0 ++ [".op"; ".end"] →
  l = String "R" rest →
  l ∈ resistor_lines 1 (resistor_pairs nodes w).
Proof.
  intros Hin Hl. rewrite !elem_of_app in Hin.
  destruct Hin as [Hin|[Hin|[Hin|[Hin|Hin]]]]; [|done|..].
  - apply list_elem_of_singleton in Hin. by subst.
  - apply list_elem_of_singleton in Hin. by subst.
  - apply (current_lines_elem [] (pad_config st)) in Hin
      as (i & r & _ & _ & _ & Hi). by subst.
  - rewrite !elem_of_cons in Hin. destruct Hin as [?|[?|?%elem_of_nil]];
      [by subst..|done].
Qed.

(** C1 (as amended): for a state in which the analysis can run, and every
    node on the net that is not on the first or the last row or column of
    the grid, the netlist has a resistor line of value 0.0005 from the
    name of the node to the name of each of its four neighbours (right,
    bottom, left, top) that is on the net; and every line of the netlist
    that starts with R is such a line. *)
Theorem interior_stencil st :
  ready st →
  ∃ grid netlist,
    create_nodes st = Some grid ∧
    create_netlist st (node_names grid) = Some netlist ∧
    (∀ i j p a b,
       interior (node_names grid) (length (grid_ys (board st))) i j →
       p ∈ neighbours i j →
       node_at (node_names grid) i j = Some a → a ≠ "" →
       node_at (node_names grid) p.1 p.2 = Some b → b ≠ "" →
       ∃ n : nat,
         "R" +:+ pretty n +:+ " " +:+ a +:+ " " +:+ b +:+ " 0.0005"
           ∈ netlist) ∧
    (∀ l rest, l ∈ netlist → l = String "R" rest →
       ∃ i j p a b (n : nat),
         interior (node_names grid) (length (grid_ys (board st))) i j ∧
         p ∈ neighbours i j ∧
         node_at (node_names grid) i j = Some a ∧ a ≠ "" ∧
         node_at (node_names grid) p.1 p.2 = Some b ∧ b ≠ "" ∧
         l = "R" +:+ pretty n +:+ " " +:+ a +:+ " " +:+ b +:+ " 0.0005").
Proof.
  intros Hready.
  destruct (create_netlist_ready st Hready)
    as (grid & src & Hgrid & Hrect & Hsrc & Hnetlist).
  eexists grid, _. split; [done|]. split; [exact Hnetlist|]. split.
  - intros i j p a b Hint Hp Ha Hon Hb Hbon.
    assert (Hin : (a, b) ∈ resistor_pairs (node_names grid)
                    (length (grid_ys (board st))))
      by (apply resistor_pairs_elem; eauto 10).
    apply list_elem_of_lookup in Hin as [k Hk]. exists (1 + k)%nat.
    apply elem_of_app. right. apply elem_of_app. left.
    apply resistor_lines_elem. exists k, (a, b). done.
  - intros l rest Hin Hl.
    apply (netlist_resistor_line st _ _ src l rest) in Hin; [|done].
    apply resistor_lines_elem in Hin as (k & [a b] & Hk & ->).
    apply list_elem_of_lookup_2, resistor_pairs_elem in Hk
      as (i & j & p & ? & ? & ? & ? & ? & ?).
    exists i, j, p, a, b, (1 + k)%nat. done.
Qed.

Lemma interior_stencil_witness :
  ready Demo.demo_state ∧
  ∃ grid netlist,
    create_nodes Demo.demo_state = Some grid ∧
    create_netlist Demo.demo_state (node_names grid) = Some netlist ∧
    "R3 n1x1 n0x1 0.0005" ∈ netlist.
Proof.
  split; [exact demo_ready|].
  destruct (interior_stencil Demo.demo_state demo_ready)
    as (grid & netlist & Hgrid & Hnetlist & _).
  exists grid, netlist. split; [done|]. split; [done|].
  vm_compute in Hgrid. injection Hgrid as <-.
  vm_compute in Hnetlist. injection Hnetlist as <-.
  do 3 right. left.
Defined.

(** C1 (counterexample): on the board of 2 by 1 test points, both on the
    net and neighbours of each other, the netlist has no resistor line
    from the first to the second, for no line of it starts with R. *)
Lemma border_nodes_counterexample :
  ∃ grid netlist,
    create_nodes Demo.edge_state = Some grid ∧
    create_netlist Demo.edge_state (node_names grid) = Some netlist ∧
    node_at (node_names grid) 0 0 = Some "J1-Pad1" ∧
    node_at (node_names grid) 1 0 = Some "n1x0" ∧
    (1, 0)%nat ∈ neighbours 0 0 ∧
    ¬ ∃ n : nat, "R" +:+ pretty n +:+ " J1-Pad1 n1x0 0.0005" ∈ netlist.
Proof.
  eexists _, _. split; [reflexivity|]. split; [reflexivity|].
  split; [reflexivity|]. split; [reflexivity|]. split; [by left|].
  intros [n Hin]. simpl in Hin.
  rewrite !elem_of_cons in Hin.
  destruct Hin as [?|[?|[?|[?|?%elem_of_nil]]]]; done.
Qed.

(** C3: for a state in which the analysis can run, the netlist is the
    line analysis, then the resistor lines, the k-th of them (from 0)
    named R<k+1>, then the one line V1 <name of the source row> 0 3.3,
    then the lines I<i> <name> 0 <current> of the rows whose current draw
    is not the string 0, with i the index of the row, in the order of the
    rows, then .op and .end. *)
Theorem netlist_structure st :
  ready st →
  ∃ grid src,
    create_nodes st = Some grid ∧
    pad_config st !! Z.to_nat (source_row st) = Some src ∧
    create_netlist st (node_names grid) =
      Some (["analysis"]
            ++ imap (λ k p, "R" +:+ pretty (S k) +:+ " " +:+ p.1 +:+ " "
                              +:+ p.2 +:+ " 0.0005")
                 (resistor_pairs (node_names grid)
                    (length (grid_ys (board st))))
            ++ ["V1 " +:+ row_name src +:+ " 0 3.3"]
            ++ current_lines (pad_config st) 0
            ++ [".op"; ".end"]) ∧
    (∀ l, l ∈ current_lines (pad_config st) 0 ↔
       ∃ (i : nat) r, pad_config st !! i = Some r ∧ row_current r ≠ "0" ∧
         l = "I" +:+ pretty i +:+ " " +:+ row_name r +:+ " 0 "
               +:+ row_current r).
Proof.
  intros Hready.
  destruct (create_netlist_ready st Hready)
    as (grid & src & Hgrid & Hrect & Hsrc & Hnetlist).
  exists grid, src. split; [done|]. split; [done|]. split; [exact Hnetlist|].
  intros l. rewrite (current_lines_elem [] (pad_config st)). simpl.
  split; intros (i & r & Hi & H); exists i, r.
  - destruct H as (_ & ? & ->). done.
  - destruct H as (? & ->). split_and!; [done|lia|done..].
Qed.

Lemma netlist_structure_witness :
  ready Demo.demo_state ∧
  create_netlist Demo.demo_state
    [["n0x0"; "n0x1"; ""]; ["n1x0"; "n1x1"; "U1-Pad2"];
     ["U1-Pad4"; "U1-Pad2"; "U1-Pad2"]] =
    Some ["analysis"; "R1 n1x1 U1-Pad2 0.0005"; "R2 n1x1 U1-Pad2 0.0005";
          "R3 n1x1 n0x1 0.0005"; "R4 n1x1 n1x0 0.0005"; "V1 U1-Pad2 0 3.3";
          "I2 U1-Pad4 0 0.5"; ".op"; ".end"].
Proof.
  split; [exact demo_ready|].
  destruct (netlist_structure Demo.demo_state demo_ready)
    as (grid & src & Hgrid & Hsrc & Hnetlist & _).
  vm_compute in Hgrid. injection Hgrid as <-.
  vm_compute in Hsrc. injection Hsrc as <-.
  vm_compute in Hnetlist. vm_compute. exact Hnetlist.
Defined.

(** C7: in every state that the handlers can reach, a press of the button
    does not run the analysis when source_row is -1; when it runs it,
    source_row is the index of a row of pad_config whose toggle is on, and
    the netlist of the run has the line V1 <name of that row> 0 3.3. *)
Theorem analysis_needs_source b st str_lower ngspice matshow :
  reachable b st →
  (source_row st = -1 →
     OnStartAnalysis str_lower ngspice matshow st = NotRun) ∧
  (∀ result, OnStartAnalysis str_lower ngspice matshow st = Ran result →
     source_row st ≠ -1 ∧
     ∃ src grid netlist,
       0 ≤ source_row st ∧
       pad_config st !! Z.to_nat (source_row st) = Some src ∧
       row_source src = true ∧
       create_nodes st = Some grid ∧
       create_netlist st (node_names grid) = Some netlist ∧
       "V1 " +:+ row_name src +:+ " 0 3.3" ∈ netlist ∧
       result =
         (volts ← node_voltages str_lower (ngspice netlist) (node_names grid);
          _ ← matshow volts; Some volts)).
Proof.
  intros Hreach. unfold OnStartAnalysis. split.
  - intros Hnone. by rewrite decide_False by (intros H; by apply H).
  - intros result Hran. case_decide as Hsel; [|done]. split; [done|].
    pose proof (reachable_ready b st Hreach Hsel) as Hready.
    destruct (create_netlist_ready st Hready)
      as (grid & src & Hgrid & _ & Hsrc & Hnetlist).
    destruct (reachable_source_inv b st Hreach) as (Htoggle & _ & _).
    destruct Hready as [(name & net & Hname & _) Hrange].
    eexists src, grid, _. split; [lia|]. split; [done|]. split.
    { apply (Htoggle _ src Hsrc). lia. }
    split; [done|]. split; [exact Hnetlist|]. split.
    + apply elem_of_app. right. apply elem_of_app. right.
      apply elem_of_app. left. by apply list_elem_of_singleton.
    + injection Hran as <-. unfold run_analysis.
      rewrite Hname, Hgrid. simpl. rewrite Hnetlist. done.
Qed.

Lemma analysis_needs_source_witness :
  reachable Demo.demo_board Demo.demo_state ∧
  source_row Demo.demo_state ≠ -1 ∧
  ∃ result grid netlist,
    OnStartAnalysis lower (λ _, Demo.demo_op1) (λ _, Some ())
      Demo.demo_state = Ran result ∧
    create_nodes Demo.demo_state = Some grid ∧
    create_netlist Demo.demo_state (node_names grid) = Some netlist ∧
    "V1 U1-Pad2 0 3.3" ∈ netlist.
Proof.
  split; [exact demo_reachable|].
  destruct (analysis_needs_source Demo.demo_board Demo.demo_state lower
              (λ _, Demo.demo_op1) (λ _, Some ()) demo_reachable) as [_ Hrun].
  destruct (Hrun _ eq_refl)
    as (Hsel & src & grid & netlist & _ & Hsrc & _ & Hgrid & Hnetlist & Hin & _).
  split; [exact Hsel|]. eexists _, grid, netlist.
  split; [reflexivity|]. split; [exact Hgrid|]. split; [exact Hnetlist|].
  vm_compute in Hsrc. injection Hsrc as <-. exact Hin.
Defined.

(* --------------------------------------------------------------------- *)
(* Classification and names of the nodes                                  *)
(* --------------------------------------------------------------------- *)

Lemma list_find_is_Some {A} (P : A → Prop) `{!∀ x, Decision (P x)} (l : list A) :
  is_Some (list_find P l) ↔ ∃ x, x ∈ l ∧ P x.
Proof.
  split.
  - intros [[k x] Hfind]. apply list_find_Some in Hfind as (Hk & HP & _).
    exists x. split; [by eapply list_elem_of_lookup_2|done].
  - intros (x & Hin & HP). by eapply list_find_elem_of.
Qed.

Lemma grid_node_create st name net grid i j nd :
  (∀ i j, grid_node grid i j =
     (x ← grid_xs (board st) !! i; y ← grid_ys (board st) !! j;
      create_node (pad_config st) (Some (pads_of_net (board st) name))
        (TracksInNet (board st) (GetNet net)) i j x y)) →
  grid_node grid i j = Some nd →
  ∃ x y, grid_xs (board st) !! i = Some x ∧ grid_ys (board st) !! j = Some y ∧
    create_node (pad_config st) (Some (pads_of_net (board st) name))
      (TracksInNet (board st) (GetNet net)) i j x y = Some nd.
Proof.
  intros Hnodes Hnd. rewrite Hnodes in Hnd.
  destruct (grid_xs (board st) !! i) as [x|]; [|done].
  destruct (grid_ys (board st) !! j) as [y|]; [|done]. eauto.
Qed.

Lemma format_node_name_nonempty i j : format_node_name i j ≠ "".
Proof. done. Qed.

Lemma pad_node_name_nonempty cfg k name :
  (∀ r, r ∈ cfg → row_name r ≠ "") → name ≠ "" →
  pad_node_name cfg k name ≠ "".
Proof.
  intros Hcfg Hname. unfold pad_node_name.
  destruct (cfg !! k) as [r|] eqn:Hr; [|done].
  apply list_elem_of_lookup_2, Hcfg in Hr.
  case_decide; [done|]. by destruct (row_source r).
Qed.

(** C2: for a state in which the analysis can run, every point of the
    grid is marked as on the net exactly when a pad of the board with the
    selected net name, or a track of the board with the code of the
    selected net, hits it; the pads are tested in their order up to the
    first that hits, the tracks only when no pad hits, in their order up
    to the first that hits. What the grid records for the point is the
    name of the node, which is not empty, when it is on the net, and the
    empty name when no pad and no track hits it: the entry of the grid is
    not empty exactly when a pad or a track hits the point. *)
Theorem classification st :
  ready st →
  ∃ name net grid,
    analysis_netname st = Some name ∧ analysis_net st = Some net ∧
    create_nodes st = Some grid ∧
    ∀ i j nd, grid_node grid i j = Some nd →
      (node_on_net nd = true ↔
         (∃ pad, pad ∈ GetPads (board st) ∧ GetNetname pad = name ∧
            PadHitTest pad (test_point nd).1 (test_point nd).2 = true) ∨
         (∃ track, track ∈ GetTracks (board st) ∧
            GetNetCode track = GetNet net ∧
            TrackHitTest track (test_point nd).1 (test_point nd).2 = true)) ∧
      hit_tests nd =
        expected_hit_tests (pads_of_net (board st) name)
          (TracksInNet (board st) (GetNet net))
          (test_point nd).1 (test_point nd).2 ∧
      (∀ k, ProbeTrack k ∈ hit_tests nd →
         ∀ pad, pad ∈ GetPads (board st) → GetNetname pad = name →
           PadHitTest pad (test_point nd).1 (test_point nd).2 = false) ∧
      (node_on_net nd = false → node_at (node_names grid) i j = Some "") ∧
      (node_on_net nd = true →
         node_at (node_names grid) i j = Some (node_name nd) ∧
         node_name nd ≠ "") ∧
      (node_at (node_names grid) i j ≠ Some "" ↔
         (∃ pad, pad ∈ GetPads (board st) ∧ GetNetname pad = name ∧
            PadHitTest pad (test_point nd).1 (test_point nd).2 = true) ∨
         (∃ track, track ∈ GetTracks (board st) ∧
            GetNetCode track = GetNet net ∧
            TrackHitTest track (test_point nd).1 (test_point nd).2 = true)).
Proof.
  intros Hready.
  destruct (create_nodes_ready st Hready)
    as (name & net & grid & Hname & Hnet & _ & Hle & Hgrid & _ & _ & Hnodes).
  exists name, net, grid. split; [done|]. split; [done|]. split; [done|].
  intros i j nd Hnd.
  destruct (grid_node_create st name net grid i j nd Hnodes Hnd)
    as (x & y & _ & _ & Hcreate).
  destruct (create_node_first (pad_config st) (pads_of_net (board st) name)
    (TracksInNet (board st) (GetNet net)) i j x y Hle)
    as (nd' & Hcreate' & Hpt & Hon & Hnode_name & Hprobes).
  rewrite Hcreate in Hcreate'. injection Hcreate' as <-.
  rewrite Hpt. simpl.
  assert (Hhits : node_on_net nd = true ↔
            (∃ pad, pad ∈ GetPads (board st) ∧ GetNetname pad = name ∧
               PadHitTest pad x y = true) ∨
            (∃ track, track ∈ GetTracks (board st) ∧
               GetNetCode track = GetNet net ∧
               TrackHitTest track x y = true)).
  { rewrite Hon, bool_decide_eq_true, !list_find_is_Some.
    unfold pads_of_net, TracksInNet, pad_hit, track_hit.
    split; (intros [(pad & Hin & Hhit)|(track & Hin & Hhit)]; [left|right]).
    + apply list_elem_of_filter in Hin as [? ?]. eauto.
    + apply list_elem_of_filter in Hin as [? ?]. eauto.
    + destruct Hhit as [? ?]. exists pad. split; [|done].
      by apply list_elem_of_filter.
    + destruct Hhit as [? ?]. exists track. split; [|done].
      by apply list_elem_of_filter. }
  assert (Hnonempty : node_name nd ≠ "").
  { rewrite Hnode_name. destruct (list_find _ _) as [[k pad]|]; [|done].
    apply pad_node_name_nonempty; [|done].
    intros r Hr. destruct Hready as [Hcfg _]. by eapply configured_names. }
  assert (Hentry : node_at (node_names grid) i j
                   = Some (if node_on_net nd then node_name nd else "")).
  { rewrite node_at_names, Hnd. done. }
  split_and!.
  - done.
  - done.
  - intros k Hk pad Hin Hpadnet. rewrite Hprobes in Hk.
    unfold expected_hit_tests in Hk.
    destruct (list_find (pad_hit x y) (pads_of_net (board st) name))
      as [[k' pad']|] eqn:Hfind.
    + apply list_elem_of_fmap in Hk as (? & ? & _). done.
    + apply list_find_None in Hfind.
      apply not_true_is_false.
      apply (proj1 (Forall_forall _ _) Hfind pad).
      by apply list_elem_of_filter.
  - intros Hoff. by rewrite Hentry, Hoff.
  - intros Hnet_on. by rewrite Hentry, Hnet_on.
  - rewrite <- Hhits, Hentry. destruct (node_on_net nd).
    + split; [done|]. intros _ [= Heq]. done.
    + split; [done|]. done.
Qed.

Lemma classification_witness :
  ready Demo.demo_state ∧ ready Demo.wide_state ∧
  (∃ grid nd,
     create_nodes Demo.demo_state = Some grid ∧
     grid_node grid 0 2 = Some nd ∧
     node_on_net nd = false ∧
     hit_tests nd = [ProbePad 0; ProbePad 1; ProbePad 2; ProbeTrack 0] ∧
     node_at (node_names grid) 0 2 = Some "") ∧
  (∃ grid nd,
     create_nodes Demo.demo_state = Some grid ∧
     grid_node grid 1 2 = Some nd ∧
     node_on_net nd = true ∧
     hit_tests nd = [ProbePad 0; ProbePad 1] ∧
     node_at (node_names grid) 1 2 = Some "U1-Pad2") ∧
  (∃ grid nd,
     create_nodes Demo.wide_state = Some grid ∧
     grid_node grid 1 1 = Some nd ∧
     node_on_net nd = true ∧
     hit_tests nd = [ProbePad 0; ProbeTrack 0] ∧
     node_at (node_names grid) 1 1 = Some "n1x1").
Proof.
  split; [exact demo_ready|]. split; [exact wide_ready|].
  destruct (classification Demo.demo_state demo_ready)
    as (name & net & grid & Hname & Hnet & Hgrid & Hnodes).
  vm_compute in Hname. injection Hname as <-.
  vm_compute in Hnet. injection Hnet as <-.
  vm_compute in Hgrid. injection Hgrid as <-.
  destruct (classification Demo.wide_state wide_ready)
    as (name' & net' & grid' & Hname' & Hnet' & Hgrid' & Hnodes').
  vm_compute in Hname'. injection Hname' as <-.
  vm_compute in Hnet'. injection Hnet' as <-.
  vm_compute in Hgrid'. injection Hgrid' as <-.
  split_and!.
  - eexists _, _. split; [reflexivity|]. split; [reflexivity|].
    split; [reflexivity|].
    destruct (Hnodes 0%nat 2%nat _ eq_refl) as (_ & Hprobes & _ & Hentry & _).
    split; [exact Hprobes|]. exact (Hentry eq_refl).
  - eexists _, _. split; [reflexivity|]. split; [reflexivity|].
    split; [reflexivity|].
    destruct (Hnodes 1%nat 2%nat _ eq_refl)
      as (_ & Hprobes & _ & _ & Hentry & _).
    split; [exact Hprobes|]. exact (proj1 (Hentry eq_refl)).
  - eexists _, _. split; [reflexivity|]. split; [reflexivity|].
    split; [reflexivity|].
    destruct (Hnodes' 1%nat 1%nat _ eq_refl)
      as (_ & Hprobes & _ & _ & Hentry & _).
    split; [exact Hprobes|]. exact (proj1 (Hentry eq_refl)).
Defined.

Lemma grid_xs_lookup b i x :
  grid_xs b !! i = Some x ↔
  x = GetX (GetBoardEdgesBoundingBox b) + Z.of_nat i * 100000 ∧
  x < GetX (GetBoardEdgesBoundingBox b) + GetWidth (GetBoardEdgesBoundingBox b).
Proof. by apply py_range_lookup. Qed.

Lemma grid_ys_lookup b j y :
  grid_ys b !! j = Some y ↔
  y = GetY (GetBoardEdgesBoundingBox b) + Z.of_nat j * 100000 ∧
  y < GetY (GetBoardEdgesBoundingBox b) + GetHeight (GetBoardEdgesBoundingBox b).
Proof. by apply py_range_lookup. Qed.

(** C4 (as amended): for a state in which the analysis can run, the grid
    has a node at index (i, j) exactly when root_x + i*100000 is below
    root_x + width and root_y + j*100000 is below root_y + height, the
    point that is tested for it is (root_x + i*100000, root_y + j*100000),
    and all the rows have the same length. The node is named after the
    first pad of the analysis net that it lies on, when that pad has a
    current draw other than 0 or is the source, and n<i>x<j> otherwise;
    the grid has this name for a node on the net and the empty name for a
    node off the net. *)
Theorem grid_discretization st :
  ready st →
  ∃ name grid,
    analysis_netname st = Some name ∧
    create_nodes st = Some grid ∧
    (∀ i j, is_Some (grid_node grid i j) ↔
       GetX (GetBoardEdgesBoundingBox (board st)) + Z.of_nat i * 100000
         < GetX (GetBoardEdgesBoundingBox (board st))
           + GetWidth (GetBoardEdgesBoundingBox (board st)) ∧
       GetY (GetBoardEdgesBoundingBox (board st)) + Z.of_nat j * 100000
         < GetY (GetBoardEdgesBoundingBox (board st))
           + GetHeight (GetBoardEdgesBoundingBox (board st))) ∧
    (∀ i j nd, grid_node grid i j = Some nd →
       test_point nd =
         (GetX (GetBoardEdgesBoundingBox (board st)) + Z.of_nat i * 100000,
          GetY (GetBoardEdgesBoundingBox (board st)) + Z.of_nat j * 100000)) ∧
    (∀ line1 line2, line1 ∈ grid → line2 ∈ grid →
       length line1 = length line2) ∧
    (∀ i j nd, grid_node grid i j = Some nd →
       node_name nd =
         match list_find (pad_hit (test_point nd).1 (test_point nd).2)
                 (pads_of_net (board st) name) with
         | Some (k, _) =>
             pad_node_name (pad_config st) k
               ("n" +:+ pretty i +:+ "x" +:+ pretty j)
         | None => "n" +:+ pretty i +:+ "x" +:+ pretty j
         end ∧
       node_at (node_names grid) i j =
         Some (if node_on_net nd then node_name nd else "")).
Proof.
  intros Hready.
  destruct (create_nodes_ready st Hready)
    as (name & net & grid & Hname & Hnet & _ & Hle & Hgrid & _ & Hrect & Hnodes).
  exists name, grid. split; [done|]. split; [done|].
  split_and!.
  - intros i j. rewrite Hnodes. split.
    + intros [nd Hnd].
      destruct (grid_xs (board st) !! i) as [x|] eqn:Hx; [|done].
      destruct (grid_ys (board st) !! j) as [y|] eqn:Hy; [|done].
      apply grid_xs_lookup in Hx as [-> Hx].
      apply grid_ys_lookup in Hy as [-> Hy]. done.
    + intros [Hx Hy].
      destruct (create_node_first (pad_config st) (pads_of_net (board st) name)
        (TracksInNet (board st) (GetNet net)) i j
        (GetX (GetBoardEdgesBoundingBox (board st)) + Z.of_nat i * 100000)
        (GetY (GetBoardEdgesBoundingBox (board st)) + Z.of_nat j * 100000)
        Hle) as (nd & Hcreate & _).
      exists nd.
      rewrite (proj2 (grid_xs_lookup (board st) i _) (conj eq_refl Hx)).
      rewrite (proj2 (grid_ys_lookup (board st) j _) (conj eq_refl Hy)).
      exact Hcreate.
  - intros i j nd Hnd.
    destruct (grid_node_create st name net grid i j nd Hnodes Hnd)
      as (x & y & Hx & Hy & Hcreate).
    apply grid_xs_lookup in Hx as [-> _].
    apply grid_ys_lookup in Hy as [-> _].
    destruct (create_node_first (pad_config st) (pads_of_net (board st) name)
      (TracksInNet (board st) (GetNet net)) i j
      (GetX (GetBoardEdgesBoundingBox (board st)) + Z.of_nat i * 100000)
      (GetY (GetBoardEdgesBoundingBox (board st)) + Z.of_nat j * 100000) Hle)
      as (nd' & Hcreate' & Hpt & _).
    rewrite Hcreate in Hcreate'. injection Hcreate' as <-. exact Hpt.
  - intros line1 line2 Hin1 Hin2.
    by rewrite (Hrect line1 Hin1), (Hrect line2 Hin2).
  - intros i j nd Hnd.
    destruct (grid_node_create st name net grid i j nd Hnodes Hnd)
      as (x & y & _ & _ & Hcreate).
    destruct (create_node_first (pad_config st) (pads_of_net (board st) name)
      (TracksInNet (board st) (GetNet net)) i j x y Hle)
      as (nd' & Hcreate' & Hpt & _ & Hnode_name & _).
    rewrite Hcreate in Hcreate'. injection Hcreate' as <-.
    rewrite Hpt. simpl. split; [exact Hnode_name|].
    rewrite node_at_names, Hnd. done.
Qed.

Lemma grid_discretization_witness :
  ready Demo.demo_state ∧
  ∃ grid,
    create_nodes Demo.demo_state = Some grid ∧
    node_names grid =
      [["n0x0"; "n0x1"; ""]; ["n1x0"; "n1x1"; "U1-Pad2"];
       ["U1-Pad4"; "U1-Pad2"; "U1-Pad2"]] ∧
    ∀ i j nd, grid_node grid i j = Some nd →
      test_point nd = (0 + Z.of_nat i * 100000, 0 + Z.of_nat j * 100000).
Proof.
  split; [exact demo_ready|].
  destruct (grid_discretization Demo.demo_state demo_ready)
    as (name & grid & _ & Hgrid & _ & Hpoints & _).
  exists grid. split; [exact Hgrid|]. split; [|exact Hpoints].
  vm_compute in Hgrid. injection Hgrid as <-. reflexivity.
Defined.

(** C4 (counterexample): the point at index (1, 1) of the demo board lies
    on the source pad U1-Pad2 (and first on the pad U1-Pad1, which has no
    current draw and is not the source), and is named n1x1 all the same;
    the point at index (0, 2), on no pad and no track, is recorded with
    the empty name, not as n0x2. *)
Lemma first_pad_counterexample :
  ∃ grid nd src,
    create_nodes Demo.demo_state = Some grid ∧
    grid_node grid 1 1 = Some nd ∧
    analysis_pads Demo.demo_state
      = Some [Demo.pad1; Demo.pad2; Demo.pad4] ∧
    PadHitTest Demo.pad2 (test_point nd).1 (test_point nd).2 = true ∧
    pad_config Demo.demo_state !! 1%nat = Some src ∧
    row_source src = true ∧ row_name src = "U1-Pad2" ∧
    node_on_net nd = true ∧
    node_name nd = "n1x1" ∧
    node_at (node_names grid) 1 1 = Some "n1x1" ∧
    node_at (node_names grid) 0 2 = Some "".
Proof. eexists _, _, _. repeat split; reflexivity. Qed.

(* --------------------------------------------------------------------- *)
(* The voltages                                                           *)
(* --------------------------------------------------------------------- *)

Lemma node_voltages_cells (str_lower : string → string)
    (op1 : gmap string (list Q)) nodes w :
  rectangular nodes w →
  (∀ i j name, node_at nodes i j = Some name → name ≠ "" →
     is_Some (values ← op1 !! str_lower name; values !! 0%nat)) →
  ∃ volts,
    node_voltages str_lower op1 nodes = Some volts ∧
    length volts = length nodes ∧
    rectangular volts w ∧
    ∀ i j name, node_at nodes i j = Some name →
      voltage_at volts i j =
        if decide (name ≠ "")
        then values ← op1 !! str_lower name; values !! 0%nat
        else Some analysis_source_voltage.
Proof.
  intros Hrect Hdata. unfold node_voltages.
  set (cell := λ i j : nat,
    name ← node_at nodes i j;
    if decide (name ≠ "")
    then values ← op1 !! str_lower name; values !! 0%nat
    else Some analysis_source_voltage).
  set (row := λ i : nat,
    line0 ← nodes !! 0%nat; mapM (cell i) (seq 0 (length line0))).
  assert (Hrow : ∀ i, (i < length nodes)%nat → row i = mapM (cell i) (seq 0 w)).
  { intros i Hi. unfold row.
    destruct (nodes !! 0%nat) as [line0|] eqn:Hline0.
    - simpl. by rewrite (Hrect line0) by (by eapply list_elem_of_lookup_2).
    - apply lookup_ge_None in Hline0. lia. }
  assert (Hcell : ∀ i j, (i < length nodes)%nat → (j < w)%nat →
            is_Some (cell i j)).
  { intros i j Hi Hj. unfold cell.
    destruct (node_at_is_Some nodes w i j Hrect Hi Hj) as [name Hnode].
    fold (node_at nodes i j) in Hnode. rewrite Hnode. simpl.
    case_decide; [by eapply Hdata|done]. }
  assert (Hsome : is_Some (mapM row (seq 0 (length nodes)))).
  { apply mapM_is_Some_2, Forall_forall. intros i Hi%elem_of_seq. simpl.
    rewrite Hrow by lia. apply mapM_is_Some_2, Forall_forall.
    intros j Hj%elem_of_seq. apply Hcell; lia. }
  destruct Hsome as [volts Hvolts]. exists volts. split; [done|].
  apply mapM_Some_1 in Hvolts.
  assert (Hlen : length volts = length nodes).
  { apply Forall2_length in Hvolts. by rewrite length_seq in Hvolts. }
  split; [done|]. split.
  - intros vline Hin. apply list_elem_of_lookup in Hin as [i Hi].
    destruct (Forall2_lookup_r _ _ _ i vline Hvolts Hi) as (i' & Hi' & Hvline).
    apply lookup_seq in Hi' as [-> Hlt]. simpl in Hvline.
    rewrite Hrow in Hvline by done. apply mapM_Some_1, Forall2_length in Hvline.
    by rewrite length_seq in Hvline.
  - intros i j name Hnode.
    assert (Hi : (i < length nodes)%nat).
    { unfold node_at in Hnode. destruct (nodes !! i) eqn:Hline; [|done].
      by eapply lookup_lt_Some. }
    assert (Hj : (j < w)%nat).
    { unfold node_at in Hnode. destruct (nodes !! i) as [line|] eqn:Hline;
        [|done]. simpl in Hnode. apply lookup_lt_Some in Hnode.
      rewrite (Hrect line) in Hnode; [done|].
      by eapply list_elem_of_lookup_2. }
    destruct (Forall2_lookup_l _ _ _ i i Hvolts) as (vline & Hvline & Hrowi);
      [by apply lookup_seq_lt|].
    rewrite Hrow in Hrowi by done. apply mapM_Some_1 in Hrowi.
    destruct (Forall2_lookup_l _ _ _ j j Hrowi) as (v & Hv & Hcellj);
      [by apply lookup_seq_lt|].
    unfold voltage_at. rewrite Hvline. simpl. rewrite Hv.
    unfold cell in Hcellj. rewrite Hnode in Hcellj. simpl in Hcellj.
    by rewrite Hcellj.
Qed.

Lemma ready_node_name st grid i j nd :
  ready st → create_nodes st = Some grid →
  grid_node grid i j = Some nd → node_name nd ≠ "".
Proof.
  intros Hready Hgrid Hnd.
  destruct (create_nodes_ready st Hready)
    as (name & net & grid' & _ & _ & _ & Hle & Hgrid' & _ & _ & Hnodes).
  rewrite Hgrid in Hgrid'. injection Hgrid' as <-.
  destruct (grid_node_create st name net grid i j nd Hnodes Hnd)
    as (x & y & _ & _ & Hcreate).
  destruct (create_node_first (pad_config st) (pads_of_net (board st) name)
    (TracksInNet (board st) (GetNet net)) i j x y Hle)
    as (nd' & Hcreate' & _ & _ & Hnode_name & _).
  rewrite Hcreate in Hcreate'. injection Hcreate' as <-.
  rewrite Hnode_name. destruct (list_find _ _) as [[k pad]|].
  - apply pad_node_name_nonempty; [|done].
    intros r Hr. destruct Hready as [Hcfg _]. by eapply configured_names.
  - done.
Qed.

Lemma ready_rectangular st grid :
  ready st → create_nodes st = Some grid →
  length (node_names grid) = length grid ∧
  rectangular grid (length (grid_ys (board st))).
Proof.
  intros Hready Hgrid.
  destruct (create_nodes_ready st Hready)
    as (name & net & grid' & _ & _ & _ & _ & Hgrid' & _ & Hrect & _).
  rewrite Hgrid in Hgrid'. injection Hgrid' as <-.
  split; [|done]. unfold node_names. by rewrite length_fmap.
Qed.


(** C10: with the same solver table, the voltage at the index (i, j) of a
    node that is not on the net is the source voltage 3.3. *)
Theorem off_net_voltage st (str_lower : string → string)
    (op1 : gmap string (list Q)) grid :
  ready st →
  create_nodes st = Some grid →
  (∀ i j nd, grid_node grid i j = Some nd → node_on_net nd = true →
     ∃ v values, op1 !! str_lower (node_name nd) = Some (v :: values)) →
  ∃ volts,
    node_voltages str_lower op1 (node_names grid) = Some volts ∧
    ∀ i j nd, grid_node grid i j = Some nd → node_on_net nd = false →
      voltage_at volts i j = Some (33 # 10)%Q.
Proof.
  intros Hready Hgrid Hdata.
  destruct (ready_rectangular st grid Hready Hgrid) as [Hlen Hrect].
  destruct (node_voltages_cells str_lower op1 (node_names grid)
              (length (grid_ys (board st))))
    as (volts & Hvolts & Hvlen & Hvrect & Hcells).
  { by apply node_names_rectangular. }
  { intros i j name Hnode Hname. rewrite node_at_names in Hnode.
    apply fmap_Some in Hnode as (nd & Hnd & ->). unfold node_entry in *.
    destruct (node_on_net nd) eqn:Hon; [|done].
    destruct (Hdata i j nd Hnd Hon) as (v & values & ->). simpl. eauto. }
  exists volts. split; [done|].
  intros i j nd Hnd Hoff. rewrite (Hcells i j "").
  - by rewrite decide_False by (intros H; by apply H).
  - rewrite node_at_names, Hnd. simpl. unfold node_entry. by rewrite Hoff.
Qed.

Lemma demo_grid :
  create_nodes Demo.demo_state =
    Some (default [] (create_nodes Demo.demo_state)).
Proof. reflexivity. Qed.

Lemma demo_solved i j nd :
  grid_node (default [] (create_nodes Demo.demo_state)) i j = Some nd →
  node_on_net nd = true →
  ∃ v values, Demo.demo_op1 !! lower (node_name nd) = Some (v :: values).
Proof.
  intros Hnd Hon.
  destruct i as [|[|[|i]]]; [..|done];
    (destruct j as [|[|[|j]]]; [..|done]);
    vm_compute in Hnd; injection Hnd as <-; try done;
    eexists _, _; vm_compute; reflexivity.
Qed.





Lemma off_net_voltage_witness :
  ready Demo.demo_state ∧
  ∃ volts,
    node_voltages lower Demo.demo_op1
      [["n0x0"; "n0x1"; ""]; ["n1x0"; "n1x1"; "U1-Pad2"];
       ["U1-Pad4"; "U1-Pad2"; "U1-Pad2"]] = Some volts ∧
    voltage_at volts 0 2 = Some (33 # 10)%Q.
Proof.
  split; [exact demo_ready|].
  destruct (off_net_voltage Demo.demo_state lower Demo.demo_op1 _
              demo_ready demo_grid demo_solved) as (volts & Hvolts & Hoff).
  exists volts. split; [exact Hvolts|].
  apply (Hoff 0%nat 2%nat
           {| test_point := (0, 200000); node_name := "n0x2";
              node_on_net := false;
              hit_tests := [ProbePad 0; ProbePad 1; ProbePad 2; ProbeTrack 0] |});
    reflexivity.
Defined.

(* --------------------------------------------------------------------- *)
(* The handlers on the demo board                                         *)
(* --------------------------------------------------------------------- *)

Lemma net_lists_consistent_witness :
  reachable Demo.demo_board Demo.demo_state ∧
  zip (netnames Demo.demo_state) (nets Demo.demo_state) =
    [("GND", Demo.gnd); ("VCC", Demo.vcc)] ∧
  ∃ st', OnSelectNet Demo.demo_state 0 = Some st' ∧
    analysis_netname st' = Some "GND" ∧ analysis_net st' = Some Demo.gnd.
Proof.
  split; [exact demo_reachable|].
  destruct (net_lists_consistent Demo.demo_board Demo.demo_state
              demo_reachable) as (_ & _ & Hzip & Hselect).
  split; [exact Hzip|].
  destruct (Hselect 0%nat) as (name & net & st' & Hst' & Hname & Hnet & ? & ? & _);
    [vm_compute; lia|].
  vm_compute in Hname. injection Hname as <-.
  vm_compute in Hnet. injection Hnet as <-.
  exists st'. done.
Defined.

Lemma OnSelectNet_pad_config_witness :
  netnames (init Demo.demo_board) !! 1%nat = Some "VCC" ∧
  nets (init Demo.demo_board) !! 1%nat = Some Demo.vcc ∧
  ∃ st',
    OnSelectNet (init Demo.demo_board) 1 = Some st' ∧
    pad_config st' =
      [{| row_name := "U1-Pad1"; row_current := "0"; row_source := false |};
       {| row_name := "U1-Pad2"; row_current := "0"; row_source := false |};
       {| row_name := "U1-Pad4"; row_current := "0"; row_source := false |}] ∧
    source_row st' = -1 ∧ start_button st' = false.
Proof.
  split; [reflexivity|]. split; [reflexivity|].
  destruct (OnSelectNet_pad_config (init Demo.demo_board) 1 "VCC" Demo.vcc
              eq_refl eq_refl) as (st' & Hst' & _ & Hcfg & Hrow & Hbutton).
  exists st'. split; [exact Hst'|]. split; [|done].
  rewrite Hcfg. reflexivity.
Defined.

Lemma toggle_source_invariant_witness :
  source_inv Demo.demo_state ∧
  (0 < length (pad_config Demo.demo_state))%nat ∧
  source_row Demo.demo_state = 1 ∧
  source_inv (toggle_source Demo.demo_state 0) ∧
  source_row (toggle_source Demo.demo_state 0) = 0 ∧
  start_button (toggle_source Demo.demo_state 0) = true ∧
  GetToggleValue (pad_config (toggle_source Demo.demo_state 0)) 0 = Some true ∧
  GetToggleValue (pad_config (toggle_source Demo.demo_state 0)) 1 = Some false.
Proof.
  pose proof (reachable_source_inv _ _ demo_reachable) as Hinv.
  split; [exact Hinv|]. split; [vm_compute; lia|]. split; [reflexivity|].
  destruct (toggle_source_invariant Demo.demo_state 0 Hinv)
    as (Hinv' & _ & _ & Hother); [vm_compute; lia|].
  split; [exact Hinv'|].
  destruct Hother as (Hrow & Hbutton & Hon & Hoff); [done|].
  split; [exact Hrow|]. split; [exact Hbutton|]. split; [exact Hon|].
  apply Hoff. done.
Defined.

(* --------------------------------------------------------------------- *)
(* The names of the nodes                                                 *)
(* --------------------------------------------------------------------- *)

Lemma pretty_N_char_digit x : is_digit (pretty_N_char x).
Proof.
  unfold is_digit, pretty_N_char.
  repeat case_match; vm_compute; lia.
Qed.

Lemma pretty_N_go_digits x s : all_digits s → all_digits (pretty_N_go x s).
Proof.
  revert s. induction (N.lt_wf_0 x) as [x _ IH]; intros s Hs.
  assert (x = 0 ∨ 0 < x)%N as [->|Hpos] by lia.
  - by rewrite pretty_N_go_0.
  - rewrite pretty_N_go_step by done. apply IH.
    + by apply N.div_lt.
    + split; [apply pretty_N_char_digit|done].
Qed.

Lemma pretty_nat_digits (n : nat) : all_digits (pretty n).
Proof.
  unfold pretty, pretty_nat, pretty, pretty_N.
  case_decide; [split; [vm_compute; lia|done]|].
  by apply pretty_N_go_digits.
Qed.

(* A text of digits ends where the first character that is no digit
   stands. *)
Lemma digits_split p1 p2 c q1 q2 :
  all_digits p1 → all_digits p2 → ¬ is_digit c →
  p1 +:+ String c q1 = p2 +:+ String c q2 → p1 = p2 ∧ q1 = q2.
Proof.
  revert p2. induction p1 as [|d1 p1 IH]; intros [|d2 p2] Hp1 Hp2 Hc Heq;
    simpl in *.
  - by simplify_eq.
  - simplify_eq. by destruct Hp2.
  - simplify_eq. by destruct Hp1.
  - injection Heq as -> Heq. destruct Hp1 as [_ Hp1], Hp2 as [_ Hp2].
    destruct (IH p2 Hp1 Hp2 Hc Heq) as [-> ->]. done.
Qed.

Lemma lower_digits s : all_digits s → lower s = s.
Proof.
  induction s as [|c s IH]; [done|]. intros [Hc Hs]. simpl.
  rewrite IH by done. f_equal. unfold lower_ascii, is_digit in *.
  by rewrite decide_False by lia.
Qed.

Lemma lower_app s1 s2 : lower (s1 +:+ s2) = lower s1 +:+ lower s2.
Proof. induction s1 as [|c s1 IH]; [done|]. simpl. by rewrite IH. Qed.

Lemma all_digits_no_dash s s1 s2 : all_digits s → s ≠ s1 +:+ String "-" s2.
Proof.
  revert s1. induction s as [|c s IH]; intros [|c1 s1] Hs Heq; simpl in *;
    try done.
  - injection Heq as -> _. destruct Hs as [Hc _]. vm_compute in Hc. lia.
  - injection Heq as -> Heq. destruct Hs as [_ Hs]. by eapply IH.
Qed.

Lemma lower_node_name i j : lower (format_node_name i j) = format_node_name i j.
Proof.
  unfold format_node_name. rewrite !lower_app.
  rewrite (lower_digits (pretty i)), (lower_digits (pretty j))
    by apply pretty_nat_digits.
  reflexivity.
Qed.

Lemma format_node_name_inj i j i' j' :
  format_node_name i j = format_node_name i' j' → i = i' ∧ j = j'.
Proof.
  unfold format_node_name. simpl. intros [= Heq].
  apply digits_split in Heq as [Hi Hj];
    [|apply pretty_nat_digits..|vm_compute; lia].
  split; by apply (inj pretty).
Qed.

(** X1: the names n<i>x<j> of the grid are lowercase already, and two of
    them are equal only for the same index, so that two unnamed points of
    the grid are never the same node of the circuit nor read the same
    entry of the table of the solver. *)
Theorem node_name_injective i j i' j' :
  lower (format_node_name i j) = format_node_name i j ∧
  (format_node_name i j = format_node_name i' j' → i = i' ∧ j = j').
Proof.
  split; [apply lower_node_name|apply format_node_name_inj].
Qed.

Lemma node_name_no_dash p q r t :
  all_digits p → all_digits q → p +:+ String "x" q ≠ r +:+ String "-" t.
Proof.
  revert r. induction p as [|d p IH]; intros [|c r] Hp Hq Heq; simpl in *.
  - by simplify_eq.
  - injection Heq as _ Heq. by eapply all_digits_no_dash.
  - injection Heq as -> _. destruct Hp as [Hd _]. vm_compute in Hd. lia.
  - injection Heq as _ Heq. destruct Hp as [_ Hp]. by eapply IH.
Qed.

Lemma format_node_name_no_dash i j r t :
  format_node_name i j ≠ r +:+ String "-" t.
Proof.
  destruct r as [|c r]; intros Heq; unfold format_node_name in Heq;
    simpl in Heq; [by simplify_eq|].
  injection Heq as _ Heq.
  apply (node_name_no_dash (pretty i) (pretty j) r t);
    [apply pretty_nat_digits..|exact Heq].
Qed.

Lemma pad_label_not_node_name pad i j : pad_label pad ≠ format_node_name i j.
Proof.
  intros Heq.
  by apply (format_node_name_no_dash i j (GetReference pad)
              ("Pad" +:+ GetPadName pad)).
Qed.


Lemma length_bind_le {A B} (f : A → list B) (l : list A) k :
  (∀ x, x ∈ l → length (f x) ≤ k)%nat → (length (l ≫= f) ≤ k * length l)%nat.
Proof.
  induction l as [|x l IH]; intros Hf; [simpl; lia|].
  rewrite bind_cons, length_app. simpl.
  pose proof (Hf x (list_elem_of_here x l)).
  assert (length (l ≫= f) ≤ k * length l)%nat
    by (apply IH; intros; apply Hf; by right).
  lia.
Qed.

Lemma stencil_pairs_length nodes i j : (length (stencil_pairs nodes i j) ≤ 4)%nat.
Proof.
  unfold stencil_pairs, neighbours. destruct (node_at nodes i j); [|simpl; lia].
  case_decide; [|simpl; lia]. simpl.
  repeat (case_match; simpl); lia.
Qed.

Lemma resistor_pairs_length nodes w :
  (length (resistor_pairs nodes w) ≤ 4 * (length nodes - 2) * (w - 2))%nat.
Proof.
  unfold resistor_pairs.
  assert (length (seq 1 (length nodes - 1 - 1) ≫= λ i,
            seq 1 (w - 1 - 1) ≫= λ j, stencil_pairs nodes i j)
          ≤ (4 * (w - 2)) * length (seq 1 (length nodes - 1 - 1)))%nat as H.
  { apply length_bind_le. intros i _.
    replace (4 * (w - 2))%nat with (4 * length (seq 1 (w - 1 - 1)))%nat
      by (rewrite length_seq; lia).
    apply length_bind_le. intros j _. apply stencil_pairs_length. }
  rewrite length_seq in H. lia.
Qed.

(** X3: on a grid of which all the rows have the same length, also one of
    fewer than three rows or columns, the loops of the resistors never
    read outside the grid: they keep the lines that the netlist has,
    append at most four lines for each node that is not on the border, and
    leave the counter n advanced by the number of lines appended. *)
Theorem resistors_in_bounds nodes w lines n :
  rectangular nodes w →
  ∃ new,
    resistors nodes (lines, n) = Some (lines ++ new, (n + length new)%nat) ∧
    (length new ≤ 4 * (length nodes - 2) * (w - 2))%nat.
Proof.
  intros Hrect. exists (resistor_lines n (resistor_pairs nodes w)).
  rewrite (resistors_lines nodes w) by done.
  unfold resistor_lines. rewrite length_imap.
  split; [done|apply resistor_pairs_length].
Qed.

Lemma resistors_in_bounds_witness :
  rectangular [["a"; "b"]; ["c"; "d"]] 2 ∧
  resistors [["a"; "b"]; ["c"; "d"]] (["analysis"], 1%nat)
    = Some (["analysis"], 1%nat).
Proof.
  assert (Hrect : rectangular [["a"; "b"]; ["c"; "d"]] 2).
  { intros line Hin. rewrite !elem_of_cons in Hin.
    destruct Hin as [->|[->|?%elem_of_nil]]; done. }
  split; [exact Hrect|].
  destruct (resistors_in_bounds _ 2 ["analysis"] 1 Hrect) as (new & Hnew & Hlen).
  simpl in Hlen. destruct new; [|simpl in Hlen; lia]. exact Hnew.
Defined.

(* --------------------------------------------------------------------- *)
(* Small boards, and what the solver has to give                          *)
(* --------------------------------------------------------------------- *)

Lemma py_range_short start stop step (k : nat) :
  0 < step → stop ≤ start + Z.of_nat k * step →
  (length (py_range start stop step) ≤ k)%nat.
Proof.
  intros Hstep Hstop.
  destruct (decide (k < length (py_range start stop step))%nat) as [Hlt|]; [|lia].
  apply py_range_length in Hlt; [lia|done].
Qed.

Lemma ready_grid st grid :
  ready st → create_nodes st = Some grid →
  length grid = length (grid_xs (board st)) ∧
  rectangular grid (length (grid_ys (board st))) ∧
  ∀ i j nd, grid_node grid i j = Some nd →
    is_Some (grid_xs (board st) !! i) ∧ is_Some (grid_ys (board st) !! j).
Proof.
  intros Hready Hgrid.
  destruct (create_nodes_ready st Hready)
    as (name & net & grid' & _ & _ & _ & _ & Hgrid' & Hlen & Hrect & Hnodes).
  rewrite Hgrid in Hgrid'. injection Hgrid' as <-.
  split; [done|]. split; [done|]. intros i j nd Hnd.
  destruct (grid_node_create st name net grid i j nd Hnodes Hnd)
    as (x & y & -> & -> & _). eauto.
Qed.

(** X4: on a board of at most 200000 nm of width or of height, whose grid
    has fewer than three columns or rows, the netlist has no resistor at
    all: it is the title, the voltage source, the current sources and the
    two final lines, whatever the pads and the tracks are. *)
Theorem small_board_no_resistors st :
  ready st →
  GetWidth (GetBoardEdgesBoundingBox (board st)) ≤ 200000 ∨
  GetHeight (GetBoardEdgesBoundingBox (board st)) ≤ 200000 →
  ∃ grid src,
    create_nodes st = Some grid ∧
    pad_config st !! Z.to_nat (source_row st) = Some src ∧
    create_netlist st (node_names grid) =
      Some (["analysis"; "V1 " +:+ row_name src +:+ " 0 3.3"]
            ++ current_lines (pad_config st) 0 ++ [".op"; ".end"]).
Proof.
  intros Hready Hsmall.
  destruct (create_netlist_ready st Hready)
    as (grid & src & Hgrid & Hrect & Hsrc & Hnetlist).
  destruct (ready_grid st grid Hready Hgrid) as (Hlen & _ & _).
  exists grid, src. split; [done|]. split; [done|]. rewrite Hnetlist.
  assert (Hpairs : resistor_pairs (node_names grid)
                     (length (grid_ys (board st))) = []).
  { apply length_zero_iff_nil.
    pose proof (resistor_pairs_length (node_names grid)
                  (length (grid_ys (board st)))) as Hbound.
    unfold node_names in Hbound at 2. rewrite length_fmap, Hlen in Hbound.
    destruct Hsmall as [Hw|Hh].
    - assert (length (grid_xs (board st)) ≤ 2)%nat
        by (apply py_range_short; [done|]; unfold analysis_grid_spacing; lia).
      nia.
    - assert (length (grid_ys (board st)) ≤ 2)%nat
        by (apply py_range_short; [done|]; unfold analysis_grid_spacing; lia).
      nia. }
  rewrite Hpairs. done.
Qed.

Lemma small_board_no_resistors_witness :
  ready Demo.edge_state ∧
  GetWidth (GetBoardEdgesBoundingBox (board Demo.edge_state)) ≤ 200000 ∧
  create_netlist Demo.edge_state [["J1-Pad1"]; ["n1x0"]] =
    Some ["analysis"; "V1 J1-Pad1 0 3.3"; ".op"; ".end"].
Proof.
  split; [exact edge_ready|]. split; [vm_compute; discriminate|].
  destruct (small_board_no_resistors Demo.edge_state edge_ready)
    as (grid & src & Hgrid & Hsrc & Hnetlist); [left; vm_compute; discriminate|].
  vm_compute in Hgrid. injection Hgrid as <-.
  vm_compute in Hsrc. injection Hsrc as <-.
  vm_compute in Hnetlist. vm_compute. exact Hnetlist.
Defined.

(** X5: between two neighbours on the net that are both off the border of
    the grid the netlist has a resistor in each direction, one from the
    stencil of each of them; when their names differ these are two
    resistors with different numbers. *)
Theorem interior_edge_both_directions st :
  ready st →
  ∃ grid netlist,
    create_nodes st = Some grid ∧
    create_netlist st (node_names grid) = Some netlist ∧
    ∀ i j p a b,
      interior (node_names grid) (length (grid_ys (board st))) i j →
      interior (node_names grid) (length (grid_ys (board st))) p.1 p.2 →
      p ∈ neighbours i j →
      node_at (node_names grid) i j = Some a → a ≠ "" →
      node_at (node_names grid) p.1 p.2 = Some b → b ≠ "" →
      ∃ n m : nat,
        "R" +:+ pretty n +:+ " " +:+ a +:+ " " +:+ b +:+ " 0.0005" ∈ netlist ∧
        "R" +:+ pretty m +:+ " " +:+ b +:+ " " +:+ a +:+ " 0.0005" ∈ netlist ∧
        (a ≠ b → n ≠ m).
Proof.
  intros Hready.
  destruct (create_netlist_ready st Hready)
    as (grid & src & Hgrid & Hrect & Hsrc & Hnetlist).
  eexists grid, _. split; [done|]. split; [exact Hnetlist|].
  intros i j [i' j'] a b Hint Hint' Hp Ha Hon Hb Hbon. simpl in *.
  assert (Hback : (i, j) ∈ neighbours i' j').
  { unfold neighbours, interior in *. rewrite !elem_of_cons in Hp.
    destruct Hp as [Hp|[Hp|[Hp|[Hp|Hp%elem_of_nil]]]]; [..|done];
      injection Hp as -> ->; rewrite !elem_of_cons.
    - right. right. left. f_equal. lia.
    - right. right. right. left. f_equal. lia.
    - left. f_equal. lia.
    - right. left. f_equal. lia. }
  assert (Hab : (a, b) ∈ resistor_pairs (node_names grid)
                  (length (grid_ys (board st)))).
  { apply resistor_pairs_elem. exists i, j, (i', j'). done. }
  assert (Hba : (b, a) ∈ resistor_pairs (node_names grid)
                  (length (grid_ys (board st)))).
  { apply resistor_pairs_elem. exists i', j', (i, j). done. }
  apply list_elem_of_lookup in Hab as [k Hk].
  apply list_elem_of_lookup in Hba as [k' Hk'].
  exists (1 + k)%nat, (1 + k')%nat. split_and!.
  - apply elem_of_cons. right. apply elem_of_app. left.
    apply resistor_lines_elem. exists k, (a, b). done.
  - apply elem_of_cons. right. apply elem_of_app. left.
    apply resistor_lines_elem. exists k', (b, a). done.
  - intros Hne Heq. assert (k = k') as -> by lia.
    rewrite Hk in Hk'. by simplify_eq.
Qed.

Lemma interior_edge_both_directions_witness :
  ready Demo.wide_state ∧
  ∃ grid netlist (n m : nat),
    create_nodes Demo.wide_state = Some grid ∧
    create_netlist Demo.wide_state (node_names grid) = Some netlist ∧
    "R" +:+ pretty n +:+ " n1x1 n2x1 0.0005" ∈ netlist ∧
    "R" +:+ pretty m +:+ " n2x1 n1x1 0.0005" ∈ netlist ∧
    n ≠ m.
Proof.
  split; [exact wide_ready|].
  destruct (interior_edge_both_directions Demo.wide_state wide_ready)
    as (grid & netlist & Hgrid & Hnetlist & Hedges).
  destruct (Hedges 1%nat 1%nat (2, 1)%nat "n1x1" "n2x1")
    as (n & m & Hn & Hm & Hne).
  - vm_compute in Hgrid. injection Hgrid as <-. vm_compute. lia.
  - vm_compute in Hgrid. injection Hgrid as <-. vm_compute. lia.
  - by left.
  - vm_compute in Hgrid. injection Hgrid as <-. reflexivity.
  - done.
  - vm_compute in Hgrid. injection Hgrid as <-. reflexivity.
  - done.
  - exists grid, netlist, n, m. split; [exact Hgrid|]. split; [exact Hnetlist|].
    split; [exact Hn|]. split; [exact Hm|]. by apply Hne.
Defined.

(* A node on the net without a value in the table makes the
   post-processing fail. *)
Lemma node_voltages_missing (str_lower : string → string)
    (op1 : gmap string (list Q)) nodes w i j name :
  rectangular nodes w →
  node_at nodes i j = Some name → name ≠ "" →
  (values ← op1 !! str_lower name; values !! 0%nat) = None →
  node_voltages str_lower op1 nodes = None.
Proof.
  intros Hrect Hnode Hname Hmissing.
  destruct (node_voltages str_lower op1 nodes) as [volts|] eqn:Hvolts; [|done].
  exfalso. unfold node_voltages in Hvolts. apply mapM_Some_1 in Hvolts.
  assert (Hline : ∃ line, nodes !! i = Some line ∧ line !! j = Some name).
  { unfold node_at in Hnode. destruct (nodes !! i) as [line|]; [|done]. eauto. }
  destruct Hline as (line & Hline & Hj).
  assert (Hi : (i < length nodes)%nat) by (by eapply lookup_lt_Some).
  assert (Hjw : (j < w)%nat).
  { apply lookup_lt_Some in Hj. rewrite (Hrect line) in Hj; [done|].
    by eapply list_elem_of_lookup_2. }
  destruct (Forall2_lookup_l _ _ _ i i Hvolts) as (vline & _ & Hrow);
    [by apply lookup_seq_lt|].
  simpl in Hrow.
  destruct (nodes !! 0%nat) as [line0|] eqn:Hline0;
    [|apply lookup_ge_None in Hline0; lia].
  simpl in Hrow.
  rewrite (Hrect line0) in Hrow by (by eapply list_elem_of_lookup_2).
  apply mapM_Some_1 in Hrow.
  destruct (Forall2_lookup_l _ _ _ j j Hrow) as (v & _ & Hcell);
    [by apply lookup_seq_lt|].
  simpl in Hcell. rewrite Hnode in Hcell. simpl in Hcell.
  rewrite decide_True in Hcell by done. congruence.
Qed.

Lemma run_analysis_ready st str_lower ngspice matshow grid netlist :
  ready st → create_nodes st = Some grid →
  create_netlist st (node_names grid) = Some netlist →
  run_analysis str_lower ngspice matshow st =
    (volts ← node_voltages str_lower (ngspice netlist) (node_names grid);
     _ ← matshow volts; Some volts).
Proof.
  intros [(name & net & Hname & _) _] Hgrid Hnetlist.
  unfold run_analysis. rewrite Hname, Hgrid. simpl. by rewrite Hnetlist.
Qed.

(** X6: in a state in which the analysis can run, the post-processing of
    run_analysis gives a grid of voltages, which is then handed to the
    plot, exactly when the table of the solver has, under the lowercased
    name (str.lower) of every node on the net, a vector that is not
    empty; one node on the net without it makes the whole analysis fail
    before anything is shown. *)
Theorem run_analysis_needs_every_node st str_lower ngspice matshow :
  ready st →
  ∃ grid netlist,
    create_nodes st = Some grid ∧
    create_netlist st (node_names grid) = Some netlist ∧
    run_analysis str_lower ngspice matshow st =
      (volts ← node_voltages str_lower (ngspice netlist) (node_names grid);
       _ ← matshow volts; Some volts) ∧
    (is_Some (node_voltages str_lower (ngspice netlist) (node_names grid)) ↔
     ∀ i j nd, grid_node grid i j = Some nd → node_on_net nd = true →
       ∃ v values,
         ngspice netlist !! str_lower (node_name nd) = Some (v :: values)) ∧
    (∀ i j nd, grid_node grid i j = Some nd → node_on_net nd = true →
       (values ← ngspice netlist !! str_lower (node_name nd); values !! 0%nat)
         = None →
       run_analysis str_lower ngspice matshow st = None).
Proof.
  intros Hready.
  destruct (create_netlist_ready st Hready)
    as (grid & src & Hgrid & Hrect & _ & Hnetlist).
  eexists grid, _. split; [done|]. split; [exact Hnetlist|].
  pose proof (run_analysis_ready st str_lower ngspice matshow grid _
                Hready Hgrid Hnetlist) as Hrun.
  split; [exact Hrun|].
  set (op1 := ngspice _) in *.
  assert (Hnodes : ∀ i j nd, grid_node grid i j = Some nd →
            node_on_net nd = true →
            node_at (node_names grid) i j = Some (node_name nd) ∧
            node_name nd ≠ "").
  { intros i j nd Hnd Hon. split; [|by eapply ready_node_name].
    rewrite node_at_names, Hnd. simpl. unfold node_entry. by rewrite Hon. }
  split; [split|].
  - intros Hsome i j nd Hnd Hon.
    destruct (Hnodes i j nd Hnd Hon) as [Hnode Hname].
    destruct (op1 !! str_lower (node_name nd)) as [[|v values]|] eqn:Hop1;
      [|by eauto|].
    + rewrite (node_voltages_missing str_lower op1 _ _ i j _ Hrect Hnode Hname)
        in Hsome; [by apply is_Some_None in Hsome|by rewrite Hop1].
    + rewrite (node_voltages_missing str_lower op1 _ _ i j _ Hrect Hnode Hname)
        in Hsome; [by apply is_Some_None in Hsome|by rewrite Hop1].
  - intros Hdata.
    destruct (node_voltages_cells str_lower op1 (node_names grid)
                (length (grid_ys (board st))) Hrect)
      as (volts & -> & _); [|done].
    intros i j name Hnode Hname. rewrite node_at_names in Hnode.
    apply fmap_Some in Hnode as (nd & Hnd & ->). unfold node_entry in *.
    destruct (node_on_net nd) eqn:Hon; [|done].
    destruct (Hdata i j nd Hnd Hon) as (v & values & ->). simpl. eauto.
  - intros i j nd Hnd Hon Hmissing.
    destruct (Hnodes i j nd Hnd Hon) as [Hnode Hname].
    rewrite Hrun.
    by rewrite (node_voltages_missing str_lower op1 _ _ i j _ Hrect Hnode
                  Hname Hmissing).
Qed.

Lemma run_analysis_needs_every_node_witness :
  ready Demo.edge_state ∧
  run_analysis lower (λ _, {[ "j1-pad1" := [(33 # 10)%Q] ]}) (λ _, Some ())
    Demo.edge_state = None.
Proof.
  split; [exact edge_ready|].
  destruct (run_analysis_needs_every_node Demo.edge_state lower
              (λ _, {[ "j1-pad1" := [(33 # 10)%Q] ]}) (λ _, Some ())
              edge_ready)
    as (grid & netlist & Hgrid & _ & _ & _ & Hfails).
  vm_compute in Hgrid. injection Hgrid as <-.
  apply (Hfails 1%nat 0%nat _ eq_refl eq_refl). vm_compute. reflexivity.
Defined.

(** X7: on a board whose bounding box has no width or no height the grid
    has no point; whatever the solver gives, the post-processing gives a
    grid of voltages that holds no voltage at any index, and this empty
    grid is what run_analysis hands to the plot: the run ends well only
    if the plot of an empty grid does. *)
Theorem empty_board_analysis st str_lower ngspice matshow :
  ready st →
  GetWidth (GetBoardEdgesBoundingBox (board st)) ≤ 0 ∨
  GetHeight (GetBoardEdgesBoundingBox (board st)) ≤ 0 →
  ∃ volts,
    (∀ i j, voltage_at volts i j = None) ∧
    run_analysis str_lower ngspice matshow st =
      (_ ← matshow volts; Some volts).
Proof.
  intros Hready Hempty.
  destruct (create_netlist_ready st Hready)
    as (grid & src & Hgrid & Hrect & _ & Hnetlist).
  destruct (ready_grid st grid Hready Hgrid) as (Hlen & Hgrect & Hpoints).
  rewrite (run_analysis_ready st str_lower ngspice matshow grid _
             Hready Hgrid Hnetlist).
  assert (Hnone : ∀ i j, grid_node grid i j = None).
  { intros i j. destruct (grid_node grid i j) as [nd|] eqn:Hnd; [|done].
    destruct (Hpoints i j nd Hnd) as [[x Hx] [y Hy]].
    apply grid_xs_lookup in Hx as [-> Hx].
    apply grid_ys_lookup in Hy as [-> Hy]. lia. }
  set (op1 := ngspice _).
  destruct (node_voltages_cells str_lower op1 (node_names grid)
              (length (grid_ys (board st))) Hrect)
    as (volts & Hvolts & Hvlen & Hvrect & _).
  { intros i j name Hnode. rewrite node_at_names, Hnone in Hnode. done. }
  exists volts. rewrite Hvolts. split; [|done]. intros i j.
  destruct (voltage_at volts i j) as [v|] eqn:Hv; [|done]. exfalso.
  unfold voltage_at in Hv. destruct (volts !! i) as [vline|] eqn:Hvline; [|done].
  simpl in Hv. apply lookup_lt_Some in Hv.
  rewrite (Hvrect vline) in Hv by (by eapply list_elem_of_lookup_2).
  apply lookup_lt_Some in Hvline.
  unfold node_names in Hvlen. rewrite length_fmap in Hvlen.
  destruct (node_at_is_Some grid (length (grid_ys (board st))) i j Hgrect)
    as [nd Hnd]; [lia|done|].
  fold (grid_node grid i j) in Hnd. by rewrite Hnone in Hnd.
Qed.

(* With a plot that raises on an empty grid the run fails. *)
Lemma empty_board_analysis_witness :
  ready Demo.flat_state ∧
  GetWidth (GetBoardEdgesBoundingBox (board Demo.flat_state)) ≤ 0 ∧
  run_analysis lower (λ _, ∅)
    (λ volts, if decide (volts = []) then None else Some ())
    Demo.flat_state = None.
Proof.
  split; [exact flat_ready|]. split; [vm_compute; discriminate|].
  destruct (empty_board_analysis Demo.flat_state lower (λ _, ∅)
              (λ volts, if decide (volts = []) then None else Some ())
              flat_ready) as (volts & Hnone & Hrun);
    [left; vm_compute; discriminate|].
  rewrite Hrun. destruct volts as [|vline volts]; [reflexivity|].
  exfalso. unfold run_analysis in Hrun. simpl in Hrun. discriminate.
Defined.

(* --------------------------------------------------------------------- *)
(* More on the handlers                                                   *)
(* --------------------------------------------------------------------- *)

Lemma flip_toggle_twice row cfg : flip_toggle row (flip_toggle row cfg) = cfg.
Proof.
  unfold flip_toggle. revert row. induction cfg as [|r cfg IH]; intros [|row];
    simpl; try done.
  - f_equal. destruct r as [name current source]. simpl.
    by rewrite negb_involutive.
  - f_equal. apply IH.
Qed.

(** X8: from a state in which the toggles, source_row and the button
    agree and in which no row, or the row itself, is the source, two
    clicks on the toggle of a row give the state back, field by field. *)
Theorem toggle_source_twice st row :
  source_inv st →
  (row < length (pad_config st))%nat →
  source_row st = -1 ∨ source_row st = Z.of_nat row →
  toggle_source (toggle_source st row) row = st.
Proof.
  intros (_ & _ & Hbutton) Hlt Hsel. destruct st as [b names ns cfg src button
    netname net padnames pads]. simpl in *.
  unfold toggle_source, OnSelectSource, with_pad_config, set_source. simpl.
  destruct Hsel as [->| ->].
  - assert (button = false) as ->.
    { destruct button; [|done]. destruct Hbutton as [H _]. by destruct H. }
    destruct (decide (-1 = Z.of_nat row)) as [?|_]; [lia|].
    destruct (decide (-1 ≠ -1)) as [?|_]; [done|]. simpl.
    rewrite decide_True by done. by rewrite flip_toggle_twice.
  - assert (button = true) as -> by (apply Hbutton; lia).
    destruct (decide (Z.of_nat row = Z.of_nat row)) as [_|?]; [|done]. simpl.
    destruct (decide (-1 = Z.of_nat row)) as [?|_]; [lia|].
    destruct (decide (-1 ≠ -1)) as [?|_]; [done|].
    by rewrite flip_toggle_twice.
Qed.

Lemma toggle_source_twice_witness :
  source_inv Demo.demo_state ∧
  (1 < length (pad_config Demo.demo_state))%nat ∧
  source_row Demo.demo_state = 1 ∧
  source_row (toggle_source Demo.demo_state 1) = -1 ∧
  toggle_source (toggle_source Demo.demo_state 1) 1 = Demo.demo_state.
Proof.
  pose proof (reachable_source_inv _ _ demo_reachable) as Hinv.
  split; [exact Hinv|]. split; [vm_compute; lia|]. split; [reflexivity|].
  split; [reflexivity|].
  apply (toggle_source_twice Demo.demo_state 1 Hinv); [vm_compute; lia|].
  by right.
Defined.

Lemma row_current_alter (f : Row → Row) (row : nat) (cfg : list Row) :
  (∀ r, row_current (f r) = row_current r) →
  row_current <$> alter f row cfg = row_current <$> cfg.
Proof.
  intros Hf. rewrite (list_fmap_alter row_current f id)
    by (apply Forall_forall; intros; apply Hf).
  by apply list_alter_id.
Qed.

(** X9: a click on a toggle changes no name and no current draw of the
    pad configuration, whichever row was the source before: the current
    draws that were entered stay when the source is changed. *)
Theorem toggle_source_keeps_currents st row :
  row_name <$> pad_config (toggle_source st row) = row_name <$> pad_config st ∧
  row_current <$> pad_config (toggle_source st row)
    = row_current <$> pad_config st.
Proof.
  split; [apply toggle_source_names|].
  unfold toggle_source, OnSelectSource, SetToggleValue, flip_toggle. simpl.
  repeat case_decide; simpl; by rewrite !row_current_alter.
Qed.

Lemma toggle_source_fixed st row :
  board (toggle_source st row) = board st ∧
  analysis_netname (toggle_source st row) = analysis_netname st ∧
  analysis_net (toggle_source st row) = analysis_net st ∧
  analysis_padnames (toggle_source st row) = analysis_padnames st ∧
  analysis_pads (toggle_source st row) = analysis_pads st.
Proof.
  destruct (OnSelectSource_fixed
    (with_pad_config st (flip_toggle row (pad_config st))) 2 (Z.of_nat row))
    as (? & _ & _ & ? & ? & ? & ?). done.
Qed.

Lemma edit_current_fixed st row text :
  board (edit_current st row text) = board st ∧
  analysis_netname (edit_current st row text) = analysis_netname st ∧
  analysis_net (edit_current st row text) = analysis_net st ∧
  analysis_padnames (edit_current st row text) = analysis_padnames st ∧
  analysis_pads (edit_current st row text) = analysis_pads st.
Proof.
  destruct (OnSelectSource_fixed
    (with_pad_config st (SetTextValue1 text row (pad_config st))) 1
    (Z.of_nat row)) as (? & _ & _ & ? & ? & ? & ?). done.
Qed.

(* What the attributes of the analysis are in a state that the handlers
   can reach. *)
Lemma reachable_aligned b st :
  reachable b st →
  (∀ name, analysis_netname st = Some name →
     ∃ net,
       analysis_net st = Some net ∧
       (name, net) ∈ GetNetsByName b ∧ name ≠ "" ∧
       row_name <$> pad_config st = pad_label <$> pads_of_net b name ∧
       (GetPads b ≠ [] →
          analysis_pads st = Some (pads_of_net b name) ∧
          analysis_padnames st = Some (pad_label <$> pads_of_net b name))) ∧
  (analysis_netname st = None →
     pad_config st = [] ∧ analysis_pads st = None ∧ analysis_padnames st = None).
Proof.
  induction 1 as [|st e st' Hreach IH Hstep].
  - unfold init. rewrite collect_nets_filter. simpl. done.
  - destruct (reachable_fixed b st Hreach) as (Hb & Hnames & Hnets).
    destruct e as [selection|row|row text|]; simpl in Hstep.
    + destruct (netnames st !! selection) as [name|] eqn:Hname;
        [|unfold OnSelectNet in Hstep; by rewrite Hname in Hstep].
      destruct (nets st !! selection) as [net|] eqn:Hnet;
        [|unfold OnSelectNet in Hstep; by rewrite Hname, Hnet in Hstep].
      rewrite (OnSelectNet_Some st selection name net) in Hstep by done.
      simplify_eq. simpl. split; [|done]. intros ? [= <-]. exists net.
      assert (Hin : (name, net)
                ∈ filter (λ p : string * Net, p.1 ≠ "")
                    (GetNetsByName (board st))).
      { rewrite Hnames in Hname. rewrite Hnets in Hnet.
        rewrite list_lookup_fmap in Hname. rewrite list_lookup_fmap in Hnet.
        destruct (filter _ _ !! selection) as [[name' net']|] eqn:Hitem;
          [|done].
        simpl in *. simplify_eq. by eapply list_elem_of_lookup_2. }
      apply list_elem_of_filter in Hin as [Hne Hin].
      split_and!; try done.
      * by rewrite <- list_fmap_compose.
      * intros Hpads. rewrite !decide_True; [done|..];
          destruct (GetPads (board st)); simpl; (done || lia).
    + case_decide as Hrow; [|done]. simplify_eq.
      destruct (toggle_source_fixed st row) as (_ & -> & -> & -> & ->).
      rewrite toggle_source_names. destruct IH as [IH1 IH2]. split; [done|].
      intros Hnone. destruct (IH2 Hnone) as (Hnil & ? & ?).
      rewrite Hnil in Hrow. simpl in Hrow. lia.
    + case_decide as Hrow; [|done]. simplify_eq.
      destruct (edit_current_fixed st row text) as (_ & -> & -> & -> & ->).
      rewrite edit_current_names. destruct IH as [IH1 IH2]. split; [done|].
      intros Hnone. destruct (IH2 Hnone) as (Hnil & ? & ?).
      rewrite Hnil in Hrow. simpl in Hrow. lia.
    + by simplify_eq.
Qed.

(** X10: in every state that the handlers can reach after a net has been
    selected, the selected name is not empty and stands in the board with
    the selected net, the rows of pad_config are named, index by index,
    after the pads of the board that have this net name, and (on a board
    that has pads) analysis_pads and analysis_padnames are those pads and
    those names: the index of a pad in analysis_pads is the row of its
    current draw and of its toggle. *)
Theorem rows_follow_pads b st name :
  reachable b st →
  analysis_netname st = Some name →
  ∃ net,
    analysis_net st = Some net ∧
    (name, net) ∈ GetNetsByName b ∧ name ≠ "" ∧
    row_name <$> pad_config st =
      (λ pad, GetReference pad +:+ "-Pad" +:+ GetPadName pad)
        <$> filter (λ pad, GetNetname pad = name) (GetPads b) ∧
    (GetPads b ≠ [] →
       analysis_pads st
         = Some (filter (λ pad, GetNetname pad = name) (GetPads b)) ∧
       analysis_padnames st
         = Some ((λ pad, GetReference pad +:+ "-Pad" +:+ GetPadName pad)
                   <$> filter (λ pad, GetNetname pad = name) (GetPads b))).
Proof.
  intros Hreach Hname.
  destruct (reachable_aligned b st Hreach) as [Haligned _].
  exact (Haligned name Hname).
Qed.

Lemma rows_follow_pads_witness :
  reachable Demo.demo_board Demo.demo_state ∧
  analysis_netname Demo.demo_state = Some "VCC" ∧
  analysis_net Demo.demo_state = Some Demo.vcc ∧
  row_name <$> pad_config Demo.demo_state = ["U1-Pad1"; "U1-Pad2"; "U1-Pad4"] ∧
  analysis_pads Demo.demo_state = Some [Demo.pad1; Demo.pad2; Demo.pad4].
Proof.
  split; [exact demo_reachable|]. split; [reflexivity|].
  destruct (rows_follow_pads Demo.demo_board Demo.demo_state "VCC"
              demo_reachable eq_refl) as (net & Hnet & _ & _ & Hrows & Hpads).
  split; [reflexivity|]. split; [rewrite Hrows; reflexivity|].
  destruct Hpads as [Hpads _]; [done|]. rewrite Hpads. reflexivity.
Defined.

(** X11: while no net is selected, or the selected net has no pad on the
    board (a net of tracks only), no row can be made the source, and a
    press of the button never runs the analysis. *)
Theorem no_pad_no_analysis b st str_lower ngspice matshow :
  reachable b st →
  (∀ name, analysis_netname st = Some name →
     filter (λ pad, GetNetname pad = name) (GetPads b) = []) →
  pad_config st = [] ∧ source_row st = -1 ∧
  OnStartAnalysis str_lower ngspice matshow st = NotRun.
Proof.
  intros Hreach Hnopads.
  destruct (reachable_aligned b st Hreach) as [Hsome Hnone].
  assert (Hnil : pad_config st = []).
  { destruct (analysis_netname st) as [name|] eqn:Hname.
    - destruct (Hsome name eq_refl) as (net & _ & _ & _ & Hrows & _).
      unfold pads_of_net in Hrows. rewrite (Hnopads name eq_refl) in Hrows.
      by apply fmap_nil_inv in Hrows.
    - by destruct (Hnone eq_refl). }
  destruct (reachable_source_inv b st Hreach) as (_ & Hrange & _).
  assert (Hrow : source_row st = -1).
  { destruct Hrange as [?|Hrange]; [done|].
    rewrite Hnil in Hrange. simpl in Hrange. lia. }
  split; [done|]. split; [done|].
  unfold OnStartAnalysis. rewrite Hrow.
  by rewrite decide_False by (intros H; by apply H).
Qed.

Lemma no_pad_no_analysis_witness :
  reachable Demo.aux_board Demo.aux_state ∧
  analysis_netname Demo.aux_state = Some "AUX" ∧
  handle Demo.aux_state (ToggleSource 0) = None ∧
  OnStartAnalysis lower (λ _, ∅) (λ _, Some ()) Demo.aux_state = NotRun.
Proof.
  assert (Hreach : reachable Demo.aux_board Demo.aux_state).
  { eapply (reachable_step _ _ (SelectNet 0)); [apply reachable_init|].
    reflexivity. }
  split; [exact Hreach|]. split; [reflexivity|]. split; [reflexivity|].
  apply (no_pad_no_analysis Demo.aux_board Demo.aux_state lower (λ _, ∅)
           (λ _, Some ()) Hreach).
  intros name [= <-]. reflexivity.
Defined.

Lemma OnSelectNet_same st st' selection :
  board st' = board st → netnames st' = netnames st → nets st' = nets st →
  (GetPads (board st) = [] →
     analysis_padnames st' = analysis_padnames st ∧
     analysis_pads st' = analysis_pads st) →
  OnSelectNet st' selection = OnSelectNet st selection.
Proof.
  intros Hb Hnames Hnets Hstale. unfold OnSelectNet.
  rewrite Hb, Hnames, Hnets.
  destruct (netnames st !! selection) as [name|]; [|done].
  destruct (nets st !! selection) as [net|]; [|done]. simpl.
  case_decide as Hpads; [done|].
  destruct Hstale as [-> ->]; [|done].
  destruct (GetPads (board st)); [done|simpl in Hpads; lia].
Qed.

(** X12: the selection of a net starts afresh: after any event that the
    window handles, OnSelectNet gives the state that it would have given
    before the event, so that nothing of the rows, the current draws, the
    source or the net chosen before is left. *)
Theorem OnSelectNet_forgets st e st' selection :
  handle st e = Some st' →
  OnSelectNet st' selection = OnSelectNet st selection.
Proof.
  intros Hstep. destruct (handle_fixed st e st' Hstep) as (Hb & Hnames & Hnets).
  apply OnSelectNet_same; try done. intros Hnopads.
  destruct e as [sel|row|row text|]; simpl in Hstep.
  - unfold OnSelectNet in Hstep.
    destruct (netnames st !! sel); [|done].
    destruct (nets st !! sel); [|done]. simpl in Hstep.
    rewrite Hnopads in Hstep. simpl in Hstep. by simplify_eq.
  - case_decide; [|done]. simplify_eq.
    by destruct (toggle_source_fixed st row) as (_ & _ & _ & -> & ->).
  - case_decide; [|done]. simplify_eq.
    by destruct (edit_current_fixed st row text) as (_ & _ & _ & -> & ->).
  - by simplify_eq.
Qed.

Lemma OnSelectNet_forgets_witness :
  handle (init Demo.demo_board) (SelectNet 1) = Some
    (default (init Demo.demo_board) (OnSelectNet (init Demo.demo_board) 1)) ∧
  OnSelectNet Demo.demo_state 1 = OnSelectNet (init Demo.demo_board) 1.
Proof.
  split; [reflexivity|].
  set (s1 := default (init Demo.demo_board)
               (OnSelectNet (init Demo.demo_board) 1)).
  rewrite <- (OnSelectNet_forgets (init Demo.demo_board) (SelectNet 1) s1 1)
    by reflexivity.
  rewrite <- (OnSelectNet_forgets s1 (ToggleSource 1) (toggle_source s1 1) 1)
    by reflexivity.
  apply (OnSelectNet_forgets (toggle_source s1 1) (EditCurrent 2 "0.5")).
  reflexivity.
Defined.

(** X13: the current draws and the source only name the nodes: two states
    in which the analysis can run, with the same board and the same
    selected net, have grids with the same points, the same nodes on the
    net and the same hit tests, whatever their pad configurations are. *)
Theorem on_net_pattern_fixed st st' grid grid' :
  ready st → ready st' →
  board st' = board st →
  analysis_netname st' = analysis_netname st →
  analysis_net st' = analysis_net st →
  create_nodes st = Some grid →
  create_nodes st' = Some grid' →
  ∀ i j,
    test_point <$> grid_node grid' i j = test_point <$> grid_node grid i j ∧
    node_on_net <$> grid_node grid' i j = node_on_net <$> grid_node grid i j ∧
    hit_tests <$> grid_node grid' i j = hit_tests <$> grid_node grid i j.
Proof.
  intros Hready Hready' Hb Hname Hnet Hgrid Hgrid' i j.
  destruct (create_nodes_ready st Hready)
    as (name & net & g & Hn & Hnt & _ & Hle & Hg & _ & _ & Hnodes).
  destruct (create_nodes_ready st' Hready')
    as (name' & net' & g' & Hn' & Hnt' & _ & Hle' & Hg' & _ & _ & Hnodes').
  rewrite Hgrid in Hg. injection Hg as <-.
  rewrite Hgrid' in Hg'. injection Hg' as <-.
  rewrite Hname, Hn in Hn'. injection Hn' as <-.
  rewrite Hnet, Hnt in Hnt'. injection Hnt' as <-.
  rewrite Hnodes, Hnodes', Hb. rewrite Hb in Hle'.
  destruct (grid_xs (board st) !! i) as [x|]; [|done].
  destruct (grid_ys (board st) !! j) as [y|]; [|done].
  cbn [mbind option_bind].
  destruct (create_node_first (pad_config st) (pads_of_net (board st) name)
    (TracksInNet (board st) (GetNet net)) i j x y Hle)
    as (nd & -> & Hpt & Hon & _ & Hprobes).
  destruct (create_node_first (pad_config st') (pads_of_net (board st) name)
    (TracksInNet (board st) (GetNet net)) i j x y Hle')
    as (nd' & -> & Hpt' & Hon' & _ & Hprobes').
  cbn [fmap option_fmap option_map].
  by rewrite Hpt, Hpt', Hon, Hon', Hprobes, Hprobes'.
Qed.

Lemma on_net_pattern_fixed_witness :
  ready Demo.demo_state ∧
  ready (edit_current Demo.demo_state 0 "1.5") ∧
  (node_names <$> create_nodes (edit_current Demo.demo_state 0 "1.5")) =
    Some [["U1-Pad1"; "U1-Pad1"; ""]; ["U1-Pad1"; "U1-Pad1"; "U1-Pad2"];
          ["U1-Pad4"; "U1-Pad2"; "U1-Pad2"]] ∧
  ∀ i j,
    node_on_net
      <$> grid_node (default [] (create_nodes
                                   (edit_current Demo.demo_state 0 "1.5"))) i j
    = node_on_net <$> grid_node (default [] (create_nodes Demo.demo_state)) i j.
Proof.
  assert (Hready' : ready (edit_current Demo.demo_state 0 "1.5")).
  { apply (reachable_ready Demo.demo_board); [|done].
    eapply (reachable_step _ _ (EditCurrent 0 "1.5")); [exact demo_reachable|].
    reflexivity. }
  split; [exact demo_ready|]. split; [exact Hready'|].
  split; [reflexivity|]. intros i j.
  apply (on_net_pattern_fixed Demo.demo_state
           (edit_current Demo.demo_state 0 "1.5") _ _ demo_ready Hready');
    reflexivity.
Defined.

(* The name of a node of the grid is the name of its index, or the name of
   a row that has a current draw or is the source. *)
Lemma ready_node_name_cases st grid i j nd :
  ready st → create_nodes st = Some grid → grid_node grid i j = Some nd →
  node_name nd = format_node_name i j ∨
  (node_on_net nd = true ∧
   ∃ r pad, r ∈ pad_config st ∧ (row_current r ≠ "0" ∨ row_source r = true) ∧
     node_name nd = row_name r ∧ row_name r = pad_label pad).
Proof.
  intros Hready Hgrid Hnd.
  destruct (create_nodes_ready st Hready)
    as (name & net & grid' & _ & _ & _ & Hle & Hgrid' & _ & _ & Hnodes).
  rewrite Hgrid in Hgrid'. injection Hgrid' as <-.
  destruct (grid_node_create st name net grid i j nd Hnodes Hnd)
    as (x & y & _ & _ & Hcreate).
  destruct (create_node_first (pad_config st) (pads_of_net (board st) name)
    (TracksInNet (board st) (GetNet net)) i j x y Hle)
    as (nd' & Hcreate' & _ & Hon & Hnode_name & _).
  rewrite Hcreate in Hcreate'. injection Hcreate' as <-.
  destruct (list_find (pad_hit x y) (pads_of_net (board st) name))
    as [[k pad]|] eqn:Hfind; [|by left].
  unfold pad_node_name in Hnode_name.
  destruct (pad_config st !! k) as [r|] eqn:Hr; [|by left].
  assert (Hloaded : row_current r ≠ "0" ∨ row_source r = true
                    → node_name nd = row_name r).
  { intros [?|Hsrc]; [by rewrite decide_True in Hnode_name|].
    rewrite Hsrc in Hnode_name. by case_decide. }
  destruct (decide (row_current r ≠ "0")) as [Hcurrent|Hzero].
  - right. split; [rewrite Hon; apply bool_decide_eq_true; left; eauto|].
    destruct Hready as [(? & ? & _ & _ & _ & _ & Hrows) _].
    assert (Hin : row_name r ∈ row_name <$> pad_config st)
      by (apply list_elem_of_fmap_2; by eapply list_elem_of_lookup_2).
    rewrite Hrows in Hin. apply list_elem_of_fmap in Hin as (pad' & Hlabel & _).
    exists r, pad'. split; [by eapply list_elem_of_lookup_2|]. eauto.
  - destruct (row_source r) eqn:Hsrc; [|by left].
    right. split; [rewrite Hon; apply bool_decide_eq_true; left; eauto|].
    destruct Hready as [(? & ? & _ & _ & _ & _ & Hrows) _].
    assert (Hin : row_name r ∈ row_name <$> pad_config st)
      by (apply list_elem_of_fmap_2; by eapply list_elem_of_lookup_2).
    rewrite Hrows in Hin. apply list_elem_of_fmap in Hin as (pad' & Hlabel & _).
    exists r, pad'. split; [by eapply list_elem_of_lookup_2|]. eauto.
Qed.

(** X14: two different points of the grid have the same node name only
    when both are on the net and both are named after rows of the pad
    configuration that have a current draw or are the source: no two
    points are made one node of the circuit by the names n<i>x<j>. *)
Theorem merged_nodes_are_pads st grid i1 j1 i2 j2 nd1 nd2 :
  ready st →
  create_nodes st = Some grid →
  grid_node grid i1 j1 = Some nd1 →
  grid_node grid i2 j2 = Some nd2 →
  (i1, j1) ≠ (i2, j2) →
  node_name nd1 = node_name nd2 →
  node_on_net nd1 = true ∧ node_on_net nd2 = true ∧
  ∃ r1 r2,
    r1 ∈ pad_config st ∧ r2 ∈ pad_config st ∧
    node_name nd1 = row_name r1 ∧ node_name nd2 = row_name r2 ∧
    (row_current r1 ≠ "0" ∨ row_source r1 = true) ∧
    (row_current r2 ≠ "0" ∨ row_source r2 = true).
Proof.
  intros Hready Hgrid Hnd1 Hnd2 Hne Heq.
  destruct (ready_node_name_cases st grid i1 j1 nd1 Hready Hgrid Hnd1)
    as [Hn1|(Hon1 & r1 & pad1 & Hr1 & Hl1 & Hn1 & Hp1)];
    destruct (ready_node_name_cases st grid i2 j2 nd2 Hready Hgrid Hnd2)
      as [Hn2|(Hon2 & r2 & pad2 & Hr2 & Hl2 & Hn2 & Hp2)].
  - rewrite Hn1, Hn2 in Heq. apply format_node_name_inj in Heq as [-> ->].
    done.
  - exfalso. rewrite Hn1, Hn2, Hp2 in Heq. symmetry in Heq.
    by apply pad_label_not_node_name in Heq.
  - exfalso. rewrite Hn1, Hn2, Hp1 in Heq.
    by apply pad_label_not_node_name in Heq.
  - split; [done|]. split; [done|]. exists r1, r2. done.
Qed.

Lemma merged_nodes_are_pads_witness :
  ready Demo.demo_state ∧
  ∃ grid nd1 nd2,
    create_nodes Demo.demo_state = Some grid ∧
    grid_node grid 1 2 = Some nd1 ∧ grid_node grid 2 1 = Some nd2 ∧
    node_name nd1 = "U1-Pad2" ∧ node_name nd2 = "U1-Pad2" ∧
    node_on_net nd1 = true ∧ node_on_net nd2 = true.
Proof.
  split; [exact demo_ready|].
  eexists _, _, _. split; [reflexivity|]. split; [reflexivity|].
  split; [reflexivity|]. split; [reflexivity|]. split; [reflexivity|].
  destruct (merged_nodes_are_pads Demo.demo_state _ 1 2 2 1 _ _ demo_ready
              eq_refl eq_refl eq_refl) as (Hon1 & Hon2 & _); [done|reflexivity|].
  split; [exact Hon1|exact Hon2].
Defined.

(** X15: the grid has one row of nodes for each started step of 100000 nm
    of the width of the bounding box and, in each row, one node for each
    started step of 100000 nm of its height; none when the width or the
    height is not positive. *)
Theorem grid_size st grid :
  ready st →
  create_nodes st = Some grid →
  length grid =
    Z.to_nat ((GetWidth (GetBoardEdgesBoundingBox (board st)) + 99999)
              `div` 100000) ∧
  ∀ line, line ∈ grid →
    length line =
      Z.to_nat ((GetHeight (GetBoardEdgesBoundingBox (board st)) + 99999)
                `div` 100000).
Proof.
  intros Hready Hgrid.
  destruct (ready_grid st grid Hready Hgrid) as (Hlen & Hrect & _).
  split.
  - rewrite Hlen. unfold grid_xs, py_range, analysis_grid_spacing.
    rewrite length_fmap, length_seq. f_equal. f_equal. lia.
  - intros line Hin. rewrite (Hrect line Hin).
    unfold grid_ys, py_range, analysis_grid_spacing.
    rewrite length_fmap, length_seq. f_equal. f_equal. lia.
Qed.

Lemma grid_size_witness :
  ready Demo.demo_state ∧
  ∃ grid, create_nodes Demo.demo_state = Some grid ∧
    length grid = 3%nat ∧ ∀ line, line ∈ grid → length line = 3%nat.
Proof.
  split; [exact demo_ready|].
  exists (default [] (create_nodes Demo.demo_state)).
  split; [reflexivity|].
  exact (grid_size Demo.demo_state _ demo_ready eq_refl).
Defined.
